(** * aiagents-langchain: the search-or-not graph, the memory hooks and the
    chat loops

    A shallow embedding of the control logic of

    - [langgraph_agent.py]: the three graph nodes [should_search_node],
      [search_node], [respond_node], the router [route_after_decision] and
      the [workflow] graph they are wired into;
    - [lanchain_agent_aws_memory.py]: the hooks of [MemoryMiddleware],
      [print_stream_chunk] and the Bedrock entrypoint [agent_invocation];
    - [lanchain_agent.py]: [print_stream_chunk] and the interactive loop.

    Python text is modelled as [string], holding the UTF-8 encoding of the
    text: whitespace, lengths and slices are those of the characters the
    bytes encode, and [lower] maps the ASCII letters.  The model adapter,
    the search adapter, the memory store, the id generator and the agent
    executor are external collaborators: they are oracles over an abstract
    world [W], every call to one of them is recorded in a trace of events,
    and each of them may raise.  Raised values are instances of Python's
    [Exception]. *)

From Stdlib Require Import ZArith Ascii String DecimalString Lia.
From stdpp Require Import base option list strings gmap.

Local Open Scope string_scope.
Local Open Scope list_scope.
Local Set Warnings "-register-all".

(** ** Python strings *)

Module PyStr.

(** [c.lower()] on one ASCII character. *)
Definition lower_ascii (c : ascii) : ascii :=
  let n := N_of_ascii c in
  if ((65 <=? n) && (n <=? 90))%N then ascii_of_N (n + 32) else c.

(** [s.lower()], on the ASCII letters.  The source only tests lowered text
    for the substring "yes" and for equality with "exit", "quit", "bye", and
    no character outside ASCII is lowered to one of their letters alone. *)
Fixpoint lower (s : string) : string :=
  match s with
  | EmptyString => EmptyString
  | String c s' => String (lower_ascii c) (lower s')
  end.

(** [s.startswith(p)] *)
Fixpoint startswith (p s : string) : bool :=
  match p, s with
  | EmptyString, _ => true
  | String _ _, EmptyString => false
  | String a p', String b s' =>
      if Ascii.eqb a b then startswith p' s' else false
  end.

(** [needle in hay] *)
Fixpoint contains (needle hay : string) : bool :=
  startswith needle hay ||
  match hay with
  | EmptyString => false
  | String _ hay' => contains needle hay'
  end.

(** *** Whitespace

    [str.strip()] removes the characters for which [str.isspace()] holds:
    U+0009..U+000D, U+001C..U+001F, U+0020, U+0085, U+00A0, U+1680,
    U+2000..U+200A, U+2028, U+2029, U+202F, U+205F and U+3000.  In UTF-8
    they take one, two or three bytes. *)

(** The one-byte ones. *)
Definition is_ascii_space (c : ascii) : bool :=
  let n := N_of_ascii c in
  ((n =? 32) || ((9 <=? n) && (n <=? 13)) || ((28 <=? n) && (n <=? 31)))%N.

(** U+0085 (C2 85) and U+00A0 (C2 A0). *)
Definition is_space2 (c1 c2 : ascii) : bool :=
  let n1 := N_of_ascii c1 in
  let n2 := N_of_ascii c2 in
  ((n1 =? 194) && ((n2 =? 133) || (n2 =? 160)))%N.

(** U+1680 (E1 9A 80), U+2000..U+200A (E2 80 80..8A), U+2028, U+2029
    (E2 80 A8, A9), U+202F (E2 80 AF), U+205F (E2 81 9F), U+3000 (E3 80 80). *)
Definition is_space3 (c1 c2 c3 : ascii) : bool :=
  let n1 := N_of_ascii c1 in
  let n2 := N_of_ascii c2 in
  let n3 := N_of_ascii c3 in
  (((n1 =? 225) && (n2 =? 154) && (n3 =? 128))
   || ((n1 =? 226) && (n2 =? 128)
       && (((128 <=? n3) && (n3 <=? 138)) || (n3 =? 168) || (n3 =? 169) || (n3 =? 175)))
   || ((n1 =? 226) && (n2 =? 129) && (n3 =? 159))
   || ((n1 =? 227) && (n2 =? 128) && (n3 =? 128)))%N.

(** The text after its first character, when that character is whitespace. *)
Definition skip_space (s : string) : option string :=
  match s with
  | EmptyString => None
  | String c1 s1 =>
      if is_ascii_space c1 then Some s1
      else
        match s1 with
        | EmptyString => None
        | String c2 s2 =>
            if is_space2 c1 c2 then Some s2
            else
              match s2 with
              | EmptyString => None
              | String c3 s3 => if is_space3 c1 c2 c3 then Some s3 else None
              end
        end
  end.

(** [s.lstrip()] *)
Fixpoint lstrip (s : string) : string :=
  match s with
  | EmptyString => EmptyString
  | String c1 s1 =>
      if is_ascii_space c1 then lstrip s1
      else
        match s1 with
        | EmptyString => s
        | String c2 s2 =>
            if is_space2 c1 c2 then lstrip s2
            else
              match s2 with
              | EmptyString => s
              | String c3 s3 => if is_space3 c1 c2 c3 then lstrip s3 else s
              end
        end
  end.

(** [s.rstrip()]: the text is cut where what follows is whitespace only. *)
Fixpoint rstrip (s : string) : string :=
  match s with
  | EmptyString => EmptyString
  | String c s' =>
      match lstrip s with
      | EmptyString => EmptyString
      | String _ _ => String c (rstrip s')
      end
  end.

(** [s.strip()] *)
Definition strip (s : string) : string := rstrip (lstrip s).

(** *** Lengths and slices *)

(** A byte that continues a character (10xxxxxx) rather than starting one. *)
Definition is_continuation (c : ascii) : bool :=
  let n := N_of_ascii c in ((128 <=? n) && (n <? 192))%N.

(** [len(s)]: the number of characters, one for each byte that starts one. *)
Fixpoint py_len (s : string) : nat :=
  match s with
  | EmptyString => 0
  | String c s' => if is_continuation c then py_len s' else S (py_len s')
  end.

(** [s[:n]]: the first [n] characters. *)
Fixpoint py_take (n : nat) (s : string) : string :=
  match s with
  | EmptyString => EmptyString
  | String c s' =>
      if is_continuation c then String c (py_take n s')
      else match n with
           | O => EmptyString
           | S n' => String c (py_take n' s')
           end
  end.

(** *** [repr] of a text

    As Python writes it for a text of ASCII characters: between single
    quotes, or double quotes when the text has a single quote and no double
    one; the quote in use and the backslash escaped; tab, newline and
    carriage return as [\t], [\n], [\r]; the other control characters in
    hexadecimal.  Bytes above 127 are copied, as Python copies the printable
    characters they encode. *)

Definition single_quote : ascii := ascii_of_nat 39.
Definition double_quote : ascii := ascii_of_nat 34.
Definition backslash : ascii := ascii_of_nat 92.

Definition hex_digit (n : N) : ascii :=
  if (n <? 10)%N then ascii_of_N (48 + n) else ascii_of_N (87 + n).

Definition repr_char (quote c : ascii) : string :=
  let n := N_of_ascii c in
  if Ascii.eqb c quote || Ascii.eqb c backslash then String backslash (String c EmptyString)
  else if (n =? 9)%N then String backslash "t"
  else if (n =? 10)%N then String backslash "n"
  else if (n =? 13)%N then String backslash "r"
  else if ((n <? 32) || (n =? 127))%N then
    String backslash
      (String "x" (String (hex_digit (n / 16)) (String (hex_digit (n mod 16)) EmptyString)))
  else String c EmptyString.

Fixpoint repr_chars (quote : ascii) (s : string) : string :=
  match s with
  | EmptyString => EmptyString
  | String c s' => repr_char quote c +:+ repr_chars quote s'
  end.

Fixpoint has_char (c : ascii) (s : string) : bool :=
  match s with
  | EmptyString => false
  | String d s' => Ascii.eqb c d || has_char c s'
  end.

(** [repr(s)] *)
Definition py_repr (s : string) : string :=
  let quote :=
    if has_char single_quote s && negb (has_char double_quote s)
    then double_quote else single_quote in
  String quote (repr_chars quote s +:+ String quote EmptyString).

(** [sep.join(parts)] *)
Fixpoint join (sep : string) (parts : list string) : string :=
  match parts with
  | [] => EmptyString
  | [p] => p
  | p :: rest => p +:+ sep +:+ join sep rest
  end.

(** [str(n)] for a non-negative integer. *)
Definition str_of_nat (n : nat) : string :=
  NilEmpty.string_of_uint (Nat.to_uint n).

(** Truth value of a string: [bool(s)]. *)
Definition truthy (s : string) : bool :=
  match s with EmptyString => false | _ => true end.

(** [list(enumerate(l))] counting from [start]. *)
Fixpoint enumerate_from {A} (start : nat) (l : list A) : list (nat * A) :=
  match l with
  | [] => []
  | x :: l' => (start, x) :: enumerate_from (S start) l'
  end.

Definition enumerate {A} (l : list A) : list (nat * A) := enumerate_from 0 l.

Definition newline : string := String (ascii_of_nat 10) EmptyString.

(** [needle] occurs in [hay] as a run of consecutive characters. *)
Definition substring_of (needle hay : string) : Prop :=
  exists pre post, hay = pre +:+ needle +:+ post.

(** The three characters spell "yes" in some mix of upper and lower case. *)
Definition spells_yes (c1 c2 c3 : ascii) : Prop :=
  (c1 = "y"%char \/ c1 = "Y"%char) /\
  (c2 = "e"%char \/ c2 = "E"%char) /\
  (c3 = "s"%char \/ c3 = "S"%char).

(** [text] contains "yes" as a substring when case is ignored. *)
Definition contains_yes_ignoring_case (text : string) : Prop :=
  exists pre c1 c2 c3 post,
    text = pre +:+ String c1 (String c2 (String c3 post)) /\ spells_yes c1 c2 c3.

End PyStr.

(** ** Exceptions, outcomes and the effect monad *)

(** An instance of [Exception]: its class name and [str(e)]. *)
Record PyExc := mkExc { exc_class : string; exc_str : string }.

Inductive outcome (A : Type) : Type :=
| Returns (a : A)
| Raises (e : PyExc).
Arguments Returns {A} a.
Arguments Raises {A} e.

Section Effects.
Context {W E : Type}.

(** A computation reads and updates the world of the external
    collaborators, and logs each effect it performs. *)
Definition M (A : Type) : Type := W -> outcome A * W * list E.

Definition ret {A} (a : A) : M A := fun w => (Returns a, w, []).

Definition raise {A} (e : PyExc) : M A := fun w => (Raises e, w, []).

Definition bind {A B} (c : M A) (k : A -> M B) : M B :=
  fun w =>
    match c w with
    | (Returns a, w1, t1) =>
        let '(r, w2, t2) := k a w1 in (r, w2, t1 ++ t2)
    | (Raises e, w1, t1) => (Raises e, w1, t1)
    end.

(** [try: c  except Exception as e: h e] *)
Definition try_except {A} (c : M A) (h : PyExc -> M A) : M A :=
  fun w =>
    match c w with
    | (Returns a, w1, t1) => (Returns a, w1, t1)
    | (Raises e, w1, t1) =>
        let '(r, w2, t2) := h e w1 in (r, w2, t1 ++ t2)
    end.

(** A call to an external collaborator, logged as [ev]. *)
Definition extern {A} (ev : E) (f : W -> outcome A * W) : M A :=
  fun w => let '(r, w1) := f w in (r, w1, [ev]).

(** A call that cannot fail; the event records what it returned. *)
Definition sample {A} (ev : A -> E) (f : W -> A * W) : M A :=
  fun w => let '(a, w1) := f w in (Returns a, w1, [ev a]).

(** An effect that cannot fail (console output, entering a node). *)
Definition emit (ev : E) : M unit := fun w => (Returns tt, w, [ev]).

(** An expression that may raise but has no other effect. *)
Definition lift {A} (o : outcome A) : M A := fun w => (o, w, []).

Definition result_of {A} (x : outcome A * W * list E) : outcome A := x.1.1.
Definition world_of {A} (x : outcome A * W * list E) : W := x.1.2.
Definition trace_of {A} (x : outcome A * W * list E) : list E := x.2.
End Effects.

Arguments M : clear implicits.

Declare Scope py_scope.
Delimit Scope py_scope with py.
Notation "x <- c ;; k" := (bind c (fun x => k))
  (at level 20, c at level 99, k at level 200, only parsing) : py_scope.
Notation "c ;; k" := (bind c (fun _ => k))
  (at level 100, k at level 200, only parsing, right associativity) : py_scope.

(** [l[-1]] *)
Definition py_last {A} (l : list A) : outcome A :=
  match last l with
  | Some x => Returns x
  | None => Raises (mkExc "IndexError" "list index out of range")
  end.

(** ** langgraph_agent.py *)

Module LangGraph.
Import PyStr.
Local Open Scope py_scope.

(** An entry of [state["messages"]]: a dict with keys [role] and
    [content]. *)
Record Message := mkMessage { role : string; content : string }.

(** The message classes of [langchain_core.messages] used for prompts. *)
Inductive BaseMessage :=
| SystemMessage (text : string)
| HumanMessage (text : string)
| AIMessage (text : string).

(** [AgentState]: [messages] accumulates with [operator.add],
    [needs_search] is overwritten. *)
Record AgentState := mkState { messages : list Message; needs_search : bool }.

(** The partial dict a node returns: a key that is absent is [None]. *)
Record StateUpdate := mkUpdate {
  upd_messages : option (list Message);
  upd_needs_search : option bool }.

Definition apply_update (state : AgentState) (u : StateUpdate) : AgentState :=
  {| messages := messages state ++ default [] (upd_messages u);
     needs_search := default (needs_search state) (upd_needs_search u) |}.

(** One result of the search tool; the nodes read [res['content']]. *)
Record SearchResult := mkResult { res_url : string; res_content : string }.

(** What the graph and its nodes do to the outside; the diagnostic [print]
    of [respond_node] is not recorded. *)
Inductive Event :=
| EvNode (name : string)               (* the graph enters a node *)
| EvLLM (prompt : list BaseMessage)    (* llm.invoke(prompt) *)
| EvSearch (query : string).           (* search_tool.invoke({"query": query}) *)

Definition decide_instruction : string :=
  "Determine if this query requires current/real-time information " +:+
  "or factual verification that might change over time. " +:+
  "Respond ONLY with 'yes' or 'no'.".

Definition respond_instruction : string :=
  "You are a helpful assistant. Answer the user's question based on the provided information.".

Section Nodes.
Context {W : Type}.
(** [llm.invoke(prompt).content] *)
Variable llm_invoke : list BaseMessage -> W -> outcome string * W.
(** [search_tool.invoke({"query": q})], replying with a list of result
    dicts or raising.  The text the Tavily tool returns in place of a list
    when the search service fails is not a reply of this type. *)
Variable search_tool_invoke : string -> W -> outcome (list SearchResult) * W.

(** The two messages [should_search_node] sends to the model. *)
Definition decide_prompt (last_msg : Message) : list BaseMessage :=
  [ SystemMessage decide_instruction;
    HumanMessage ("Query: " +:+ content last_msg) ].

Definition should_search_node (state : AgentState) : M W Event StateUpdate :=
  last_msg <- lift (py_last (messages state)) ;;
  let prompt := decide_prompt last_msg in
  response <- extern (EvLLM prompt) (llm_invoke prompt) ;;
  let needs_search := contains "yes" (lower response) in
  ret {| upd_messages := None; upd_needs_search := Some needs_search |}.

(** The list comprehension of [search_node]. *)
Definition result_lines (results : list SearchResult) : list string :=
  map (fun ir : nat * SearchResult =>
         "Result " +:+ str_of_nat (ir.1 + 1) +:+ ": " +:+ res_content ir.2)
      (enumerate results).

Definition search_message (query formatted_results : string) : Message :=
  {| role := "assistant";
     content := "Search results for '" +:+ query +:+ "':" +:+ newline
                +:+ formatted_results |}.

Definition search_node (state : AgentState) : M W Event StateUpdate :=
  last_msg <- lift (py_last (messages state)) ;;
  let query := content last_msg in
  results <- extern (EvSearch query) (search_tool_invoke query) ;;
  let formatted_results := join newline (result_lines results) in
  ret {| upd_messages := Some [search_message query formatted_results];
         upd_needs_search := None |}.

(** One iteration of the [for msg in state["messages"]] loop of
    [respond_node], on the pair [(user_query, search_results)]. *)
Definition respond_scan (acc : option string * option string) (msg : Message)
  : option string * option string :=
  if String.eqb (role msg) "user" then (Some (content msg), acc.2)
  else if String.eqb (role msg) "assistant"
          && contains "Search results" (content msg)
       then (acc.1, Some (content msg))
       else acc.

(** The prompt assembled by [respond_node]. *)
Definition respond_prompt (state : AgentState) : outcome (list BaseMessage) :=
  let '(user_query, search_results) :=
    fold_left respond_scan (messages state) (None, None) in
  let messages0 := [SystemMessage respond_instruction] in
  let messages1 :=
    match search_results with
    | Some sr => if truthy sr then messages0 ++ [AIMessage sr] else messages0
    | None => messages0
    end in
  match user_query with
  | Some q =>
      if truthy q then Returns (messages1 ++ [HumanMessage q])
      else match py_last (messages state) with
           | Returns m => Returns (messages1 ++ [HumanMessage (content m)])
           | Raises e => Raises e
           end
  | None =>
      match py_last (messages state) with
      | Returns m => Returns (messages1 ++ [HumanMessage (content m)])
      | Raises e => Raises e
      end
  end.

Definition respond_node (state : AgentState) : M W Event StateUpdate :=
  prompt <- lift (respond_prompt state) ;;
  response <- extern (EvLLM prompt) (llm_invoke prompt) ;;
  ret {| upd_messages := Some [ {| role := "assistant"; content := response |} ];
         upd_needs_search := None |}.

Definition route_after_decision (state : AgentState) : string :=
  if needs_search state then "search" else "respond".

(** *** The graph

    [StateGraph] and its builder calls, as [workflow] uses them.  Node
    names are the strings of the source; [END] is langgraph's
    ["__end__"]. *)
Definition NodeFn : Type := AgentState -> M W Event StateUpdate.

Record StateGraph := mkGraph {
  nodes : gmap string NodeFn;
  entry_point : option string;
  edges : gmap string string;
  branches : gmap string ((AgentState -> string) * gmap string string) }.

Definition END : string := "__end__".

Definition StateGraph_new : StateGraph :=
  {| nodes := ∅; entry_point := None; edges := ∅; branches := ∅ |}.

Definition add_node (name : string) (fn : NodeFn) (g : StateGraph) : StateGraph :=
  {| nodes := <[name := fn]> (nodes g); entry_point := entry_point g;
     edges := edges g; branches := branches g |}.

Definition set_entry_point (name : string) (g : StateGraph) : StateGraph :=
  {| nodes := nodes g; entry_point := Some name;
     edges := edges g; branches := branches g |}.

Definition add_conditional_edges (source : string) (path : AgentState -> string)
    (path_map : gmap string string) (g : StateGraph) : StateGraph :=
  {| nodes := nodes g; entry_point := entry_point g; edges := edges g;
     branches := <[source := (path, path_map)]> (branches g) |}.

Definition add_edge (start_key end_key : string) (g : StateGraph) : StateGraph :=
  {| nodes := nodes g; entry_point := entry_point g;
     edges := <[start_key := end_key]> (edges g); branches := branches g |}.

Definition workflow : StateGraph :=
  let g := StateGraph_new in
  let g := add_node "decide" should_search_node g in
  let g := add_node "search" search_node g in
  let g := add_node "respond" respond_node g in
  let g := set_entry_point "decide" g in
  let g := add_conditional_edges "decide" route_after_decision
             (<["search" := "search"]> (<["respond" := "respond"]> ∅)) g in
  let g := add_edge "search" "respond" g in
  add_edge "respond" END g.

(** The node that follows [cur]: a conditional edge maps the router's
    answer through its path map, a plain edge names its target. *)
Definition next_node (g : StateGraph) (cur : string) (state : AgentState)
  : outcome string :=
  match branches g !! cur with
  | Some (path, path_map) =>
      match path_map !! path state with
      | Some dst => Returns dst
      | None => Raises (mkExc "KeyError" (PyStr.py_repr (path state)))
      end
  | None =>
      match edges g !! cur with
      | Some dst => Returns dst
      | None => Returns END
      end
  end.

(** langgraph's default [recursion_limit]. *)
Definition recursion_limit : nat := 25.

(** The compiled graph's executor, for graphs in which every node has
    one successor at a time: enter the node, run it, merge its update
    into the state, follow the edge; stop at [END]; give up with
    [GraphRecursionError] after [recursion_limit] steps. *)
Fixpoint run_from (g : StateGraph) (fuel : nat) (cur : string)
    (state : AgentState) : M W Event AgentState :=
  if String.eqb cur END then ret state
  else
    match fuel with
    | O => raise (mkExc "GraphRecursionError" "Recursion limit reached")
    | S fuel' =>
        match nodes g !! cur with
        | None => raise (mkExc "ValueError" cur)
        | Some fn =>
            emit (EvNode cur) ;;
            update <- fn state ;;
            let state' := apply_update state update in
            dst <- lift (next_node g cur state') ;;
            run_from g fuel' dst state'
        end
    end.

(** [workflow.compile().invoke(inputs)] *)
Definition invoke (g : StateGraph) (inputs : AgentState) : M W Event AgentState :=
  match entry_point g with
  | Some start => run_from g recursion_limit start inputs
  | None => raise (mkExc "ValueError" "Graph must have an entrypoint")
  end.

Definition app : AgentState -> M W Event AgentState := invoke workflow.
End Nodes.

Definition is_user (m : Message) : bool := String.eqb (role m) "user".

Definition is_search_context (m : Message) : bool :=
  negb (is_user m) && String.eqb (role m) "assistant"
  && contains "Search results" (content m).

(** The content of the first user-role message of a history. *)
Definition first_user_content (msgs : list Message) : option string :=
  content <$> head (List.filter is_user msgs).

(** The content of the most recent user-role message of a history. *)
Definition last_user_content (msgs : list Message) : option string :=
  content <$> last (List.filter is_user msgs).

(** The content of the most recent assistant-role message that carries
    the marker "Search results". *)
Definition last_search_context (msgs : list Message) : option string :=
  content <$> last (List.filter is_search_context msgs).

(** The text [respond_node] puts in the closing user message: the latest
    user content when there is one with text, else the content of the last
    message of the history. *)
Definition closing_query (msgs : list Message) (last_msg : Message) : string :=
  match last_user_content msgs with
  | Some q => if truthy q then q else content last_msg
  | None => content last_msg
  end.

(** The optional context message of the prompt. *)
Definition context_messages (msgs : list Message) : list BaseMessage :=
  match last_search_context msgs with
  | Some sr => [AIMessage sr]
  | None => []
  end.

(** The node names the graph entered, in order. *)
Definition visited (t : list Event) : list string :=
  omap (fun ev => match ev with EvNode n => Some n | _ => None end) t.

(** The prompts sent to the model adapter, in order. *)
Definition llm_calls (t : list Event) : list (list BaseMessage) :=
  omap (fun ev => match ev with EvLLM p => Some p | _ => None end) t.

(** The queries sent to the search adapter, in order. *)
Definition search_calls (t : list Event) : list string :=
  omap (fun ev => match ev with EvSearch q => Some q | _ => None end) t.

(** A scripted world for examples: the model answers with the head of the
    script, the search adapter with a fixed result list. *)
Definition scripted_llm (_ : list BaseMessage) (w : list string)
  : outcome string * list string :=
  match w with
  | r :: w' => (Returns r, w')
  | [] => (Raises (mkExc "RuntimeError" "no scripted answer"), [])
  end.

Definition fixed_search (results : list SearchResult) (_ : string)
    (w : list string) : outcome (list SearchResult) * list string :=
  (Returns results, w).

Definition failing_search (e : PyExc) (_ : string) (w : list string)
  : outcome (list SearchResult) * list string :=
  (Raises e, w).
End LangGraph.

(** ** lanchain_agent_aws_memory.py *)

Module AwsMemory.
Import PyStr.
Local Open Scope py_scope.

(** Values of a JSON payload. *)
Inductive PyVal :=
| PNone
| PBool (b : bool)
| PInt (z : Z)
| PStr (s : string)
| PList (l : list PyVal)
| PDict (d : gmap string PyVal).

(** [bool(v)] *)
Definition py_truthy (v : PyVal) : bool :=
  match v with
  | PNone => false
  | PBool b => b
  | PInt z => negb (Z.eqb z 0)
  | PStr s => truthy s
  | PList l => match l with [] => false | _ => true end
  | PDict d => negb (Nat.eqb (size d) 0)
  end.

(** [bool(l)] for a list. *)
Definition list_truthy {A} (l : list A) : bool :=
  match l with [] => false | _ => true end.

(** [d[k]]; [str] of a KeyError is the [repr] of the key. *)
Definition getitem (d : gmap string PyVal) (k : string) : outcome PyVal :=
  match d !! k with
  | Some v => Returns v
  | None => Raises (mkExc "KeyError" (py_repr k))
  end.

(** [type(v).__name__] *)
Definition type_name (v : PyVal) : string :=
  match v with
  | PNone => "NoneType"
  | PBool _ => "bool"
  | PInt _ => "int"
  | PStr _ => "str"
  | PList _ => "list"
  | PDict _ => "dict"
  end.

(** [v.strip()]: only [str] has the method. *)
Definition py_strip (v : PyVal) : outcome string :=
  match v with
  | PStr s => Returns (strip s)
  | _ => Raises (mkExc "AttributeError"
                   ("'" +:+ type_name v +:+ "' object has no attribute 'strip'"))
  end.

(** [isinstance(v, dict)] *)
Definition isinstance_dict (v : PyVal) : bool :=
  match v with PDict _ => true | _ => false end.

(** The entries of a dict (no entries for any other value). *)
Definition dict_items (v : PyVal) : gmap string PyVal :=
  match v with PDict d => d | _ => ∅ end.

Record ToolCall := mkToolCall { tc_name : string; tc_args : PyVal }.

(** The message classes of [langchain_core.messages]. *)
Inductive BaseMessage :=
| HumanMessage (text : string)
| AIMessage (text : string) (tool_calls : list ToolCall)
| ToolMessage (text : string)
| SystemMessage (text : string).

Definition msg_content (m : BaseMessage) : string :=
  match m with
  | HumanMessage c | AIMessage c _ | ToolMessage c | SystemMessage c => c
  end.

Definition is_human (m : BaseMessage) : bool :=
  match m with HumanMessage _ => true | _ => false end.

(** The agent state seen by the hooks: [state.get("messages", [])]. *)
Record AgentState := mkState { messages : list BaseMessage }.

(** A record returned by [store.search]; [item.value] is a dict, each
    entry given by the text [str()] makes of it. *)
Record Item := mkItem { item_key : string; item_value : gmap string string }.

Definition Namespace : Type := PyVal * PyVal.

Inductive Event :=
| EvUuid (id : string)                                   (* str(uuid.uuid4()) *)
| EvPut (ns : Namespace) (id : string) (msg : BaseMessage) (* store.put(ns, id, {"message": msg}) *)
| EvSearch (ns : Namespace) (query : string) (limit : nat) (* store.search(ns, query=.., limit=..) *)
| EvStream (prompt : list BaseMessage) (configurable : gmap string PyVal)
| EvPrint (text : string).

(** One value yielded by [agent_executor.stream(..., stream_mode="values")]:
    a dict that may hold the key ["messages"]. *)
Record Chunk := mkChunk { chunk_messages : option (list BaseMessage) }.

Section Hooks.
Context {W : Type}.
Variable uuid4 : W -> string * W.
Variable store_put : Namespace -> string -> BaseMessage -> W -> outcome unit * W.
Variable store_search : Namespace -> string -> nat -> W -> outcome (list Item) * W.

(** The body of the [try] in [pre_model_hook]. *)
Definition retrieve_preferences (actor_id : PyVal) (msg : BaseMessage)
  : M W Event unit :=
  let user_preferences_namespace := (PStr "preferences", actor_id) in
  try_except
    (preferences <- extern (EvSearch user_preferences_namespace (msg_content msg) 5)
                      (store_search user_preferences_namespace (msg_content msg) 5) ;;
     match preferences with
     | [] => ret tt
     | _ =>
         let memory_context :=
           join newline
             (map (fun item => "Memory: " +:+ default "" (item_value item !! "message"))
                  preferences) in
         emit (EvPrint ("Retrieved memories: " +:+ memory_context))
     end)
    (fun e => emit (EvPrint ("Memory retrieval error: " +:+ exc_str e))).

(** [for msg in reversed(messages): if isinstance(msg, HumanMessage): ...; break] *)
Fixpoint save_last_human (namespace : Namespace) (actor_id : PyVal)
    (reversed_messages : list BaseMessage) : M W Event unit :=
  match reversed_messages with
  | [] => ret tt
  | msg :: rest =>
      if is_human msg then
        id <- sample EvUuid uuid4 ;;
        extern (EvPut namespace id msg) (store_put namespace id msg) ;;
        retrieve_preferences actor_id msg
      else save_last_human namespace actor_id rest
  end.

(** [MemoryMiddleware.pre_model_hook]; the result is the value under
    ["messages"] of the returned dict. *)
Definition pre_model_hook (state : AgentState) (configurable : gmap string PyVal)
  : M W Event (list BaseMessage) :=
  actor_id <- lift (getitem configurable "actor_id") ;;
  thread_id <- lift (getitem configurable "thread_id") ;;
  let namespace := (actor_id, thread_id) in
  let messages := messages state in
  save_last_human namespace actor_id (reverse messages) ;;
  ret messages.
End Hooks.

Section Entrypoint.
Context {W : Type}.
(** [agent_executor.stream(input, config=config, stream_mode="values")]:
    the chunks it yields, and the exception that ends it if it raises. *)
Variable agent_stream :
  list BaseMessage -> gmap string PyVal -> W -> (list Chunk * option PyExc) * W.

(** The test that makes a chunk's last message the final answer. *)
Definition final_answer_of (last_msg : BaseMessage) : option string :=
  match last_msg with
  | AIMessage c tcs =>
      if truthy c && negb (list_truthy tcs) then Some c else None
  | _ => None
  end.

(** The body of the [for chunk in ...] loop, run over the yielded chunks.
    [print_stream_chunk] only writes to the console and is left out. *)
Fixpoint stream_loop (chunks : list Chunk) (step : nat) (final_answer : option string)
  : outcome (nat * option string) :=
  match chunks with
  | [] => Returns (step, final_answer)
  | chunk :: rest =>
      let step := step + 1 in
      match chunk_messages chunk with
      | Some msgs =>
          match py_last msgs with
          | Returns last_msg =>
              match final_answer_of last_msg with
              | Some c => stream_loop rest step (Some c)
              | None => stream_loop rest step final_answer
              end
          | Raises e => Raises e
          end
      | None => stream_loop rest step final_answer
      end
  end.

(** How the [for] loop over the stream ends: with the exception of the
    loop body if one of the chunks makes it raise, else with the exception
    that ends the stream if there is one, else normally. *)
Definition stream_outcome (chunks : list Chunk) (stop : option PyExc)
  : outcome (nat * option string) :=
  match stream_loop chunks 0 None with
  | Returns x => match stop with
                 | None => Returns x
                 | Some e => Raises e
                 end
  | Raises e => Raises e
  end.

Definition run_stream (user_message : string) (configurable : gmap string PyVal)
  : M W Event (nat * option string) :=
  let prompt := [HumanMessage user_message] in
  fun w =>
    let '(chunks, stop, w1) := agent_stream prompt configurable w in
    (stream_outcome chunks stop, w1, [EvStream prompt configurable]).

(** [config["configurable"]] as [agent_invocation] builds it. *)
Definition session_config (d : gmap string PyVal) : gmap string PyVal :=
  let actor_id := default (PStr "default-user") (d !! "actor_id") in
  let thread_id :=
    default (default (PStr "default-session") (d !! "session_id")) (d !! "thread_id") in
  <["thread_id" := thread_id]> (<["actor_id" := actor_id]> ∅).

Definition success_record (final_answer : string) (step : nat) : gmap string PyVal :=
  <["result" := PStr final_answer]>
    (<["steps" := PInt (Z.of_nat step)]> (<["success" := PBool true]> ∅)).

Definition error_record (msg : string) : gmap string PyVal :=
  <["error" := PStr msg]> (<["result" := PNone]> ∅).

Definition answer_summary (final_answer : string) : string :=
  if Nat.ltb 200 (py_len final_answer)
  then "📤 Final answer: " +:+ py_take 200 final_answer +:+ "..."
  else "📤 Final answer: " +:+ final_answer.

(** The statements of [agent_invocation] after the payload check. *)
Definition handle_payload (d : gmap string PyVal) : M W Event (gmap string PyVal) :=
  user_message <- lift (py_strip (default (PStr "") (d !! "prompt"))) ;;
  let configurable := session_config d in
  if negb (truthy user_message) then
    ret (error_record
           "No prompt found in input. Please provide a 'prompt' key with your question.")
  else
    emit (EvPrint ("🔍 Processing user query: " +:+ user_message)) ;;
    streamed <-
      try_except
        (r <- run_stream user_message configurable ;; ret (inr r))
        (fun e =>
           let error_msg := "Error during agent execution: " +:+ exc_str e in
           emit (EvPrint ("❌ " +:+ error_msg)) ;;
           ret (inl (error_record error_msg))) ;;
    match streamed with
    | inl early_return => ret early_return
    | inr (step, final_answer) =>
        match final_answer with
        | Some answer =>
            if truthy answer then
              emit (EvPrint (newline +:+ "✅ Agent completed in " +:+ str_of_nat step
                             +:+ " steps")) ;;
              emit (EvPrint (answer_summary answer)) ;;
              ret (success_record answer step)
            else ret (error_record "Agent failed to generate a response")
        | None => ret (error_record "Agent failed to generate a response")
        end
    end.

(** [agent_invocation(payload, context)]; [context] is never read. *)
Definition agent_invocation (payload : PyVal) : M W Event (gmap string PyVal) :=
  try_except
    (if negb (py_truthy payload) || negb (isinstance_dict payload) then
       ret (error_record
              "Invalid payload format. Expected JSON dict with 'prompt' key")
     else handle_payload (dict_items payload))
    (fun e =>
       let error_msg := "Unexpected error in agent_invocation: " +:+ exc_str e in
       emit (EvPrint ("❌ " +:+ error_msg)) ;;
       ret (<["success" := PBool false]> (error_record error_msg))).
End Entrypoint.

(** What [agent_invocation] returns once the prompt has passed the checks. *)
Definition after_stream {W : Type} (w1 : W) (user_message : string) (d : gmap string PyVal)
    (o : outcome (nat * option string)) : outcome (gmap string PyVal) * W * list Event :=
  let started :=
    [EvPrint ("🔍 Processing user query: " +:+ user_message);
     EvStream [HumanMessage user_message] (session_config d)] in
  match o with
  | Raises e =>
      (Returns (error_record ("Error during agent execution: " +:+ exc_str e)), w1,
       started ++ [EvPrint ("❌ " +:+ "Error during agent execution: " +:+ exc_str e)])
  | Returns (step, Some answer) =>
      if truthy answer then
        (Returns (success_record answer step), w1,
         started ++ [EvPrint (newline +:+ "✅ Agent completed in " +:+ str_of_nat step
                              +:+ " steps");
                     EvPrint (answer_summary answer)])
      else (Returns (error_record "Agent failed to generate a response"), w1, started)
  | Returns (step, None) =>
      (Returns (error_record "Agent failed to generate a response"), w1, started)
  end.

(** The final answers a run of chunks offers, oldest first: for each
    chunk, the text of its last message when that is an assistant message
    with text and without tool calls. *)
Definition final_answers (chunks : list Chunk) : list string :=
  omap (fun chunk => msgs ← chunk_messages chunk; m ← last msgs; final_answer_of m)
       chunks.

Definition is_print (ev : Event) : Prop := exists text, ev = EvPrint text.

(** A returned record that reports a failure: a text under ["error"] and
    [None] under ["result"]. *)
Definition is_error_record (r : gmap string PyVal) : Prop :=
  exists msg, r !! "error" = Some (PStr msg) /\ r !! "result" = Some PNone.

(** The most recent user message of a history. *)
Definition latest_human (msgs : list BaseMessage) : option BaseMessage :=
  last (List.filter is_human msgs).

(** No chunk carries an empty list under ["messages"]. *)
Definition chunks_nonempty (chunks : list Chunk) : Prop :=
  Forall (fun chunk => chunk_messages chunk ≠ Some []) chunks.

(** Worlds for examples: ids are drawn from a counter, the store accepts
    every write and answers every lookup the same way, the executor
    replays a fixed run. *)
Definition counter_uuid4 (w : nat) : string * nat := ("id-" +:+ str_of_nat w, S w).

Definition accepting_put (_ : Namespace) (_ : string) (_ : BaseMessage) (w : nat)
  : outcome unit * nat := (Returns tt, w).

Definition fixed_lookup (r : outcome (list Item)) (_ : Namespace) (_ : string)
    (_ : nat) (w : nat) : outcome (list Item) * nat := (r, w).

Definition replay_stream (chunks : list Chunk) (stop : option PyExc)
    (_ : list BaseMessage) (_ : gmap string PyVal) (w : nat)
  : (list Chunk * option PyExc) * nat := (chunks, stop, w).
End AwsMemory.

(** ** Whole runs of the graph *)

Module LangGraphRuns.
Import PyStr LangGraph.

(** The message [respond_node] appends for the model's answer. *)
Definition answer_message (answer : string) : Message :=
  {| role := "assistant"; content := answer |}.

(** The prompt [respond_node] assembles on the history [msgs] whose last
    message is [last_msg]. *)
Definition respond_prompt_of (msgs : list Message) (last_msg : Message)
  : list BaseMessage :=
  SystemMessage respond_instruction :: context_messages msgs
    ++ [HumanMessage (closing_query msgs last_msg)].

(** The message [search_node] appends for the results of a query. *)
Definition search_message_of (query : string) (results : list SearchResult) : Message :=
  search_message query (join newline (result_lines results)).

End LangGraphRuns.

(** ** lanchain_agent_aws_memory.py: the post-hook and the stream display *)

Module MemoryHooks.
Import PyStr AwsMemory.
Local Open Scope py_scope.

Definition is_ai (m : BaseMessage) : bool :=
  match m with AIMessage _ _ => true | _ => false end.

Section PostHook.
Context {W : Type}.
Variable uuid4 : W -> string * W.
Variable store_put : Namespace -> string -> BaseMessage -> W -> outcome unit * W.

(** [for msg in reversed(messages): if isinstance(msg, AIMessage): ...; break] *)
Fixpoint save_last_ai (namespace : Namespace) (reversed_messages : list BaseMessage)
  : M W Event unit :=
  match reversed_messages with
  | [] => ret tt
  | msg :: rest =>
      if is_ai msg then
        id <- sample EvUuid uuid4 ;;
        extern (EvPut namespace id msg) (store_put namespace id msg)
      else save_last_ai namespace rest
  end.

(** [MemoryMiddleware.post_model_hook], called with the state as its first
    argument, as it is written (it takes no [self]). *)
Definition post_model_hook (state : AgentState) (configurable : gmap string PyVal)
  : M W Event AgentState :=
  actor_id <- lift (getitem configurable "actor_id") ;;
  thread_id <- lift (getitem configurable "thread_id") ;;
  let namespace := (actor_id, thread_id) in
  let messages := messages state in
  save_last_ai namespace (reverse messages) ;;
  ret state.
End PostHook.

(** The most recent assistant message of a history. *)
Definition latest_ai (msgs : list BaseMessage) : option BaseMessage :=
  last (List.filter is_ai msgs).

(** The store writes of a trace, in order. *)
Definition puts (t : list Event) : list (Namespace * string * BaseMessage) :=
  omap (fun ev => match ev with EvPut ns id msg => Some (ns, id, msg) | _ => None end) t.

(** The store lookups of a trace, in order. *)
Definition lookups (t : list Event) : list (Namespace * string * nat) :=
  omap (fun ev => match ev with EvSearch ns q n => Some (ns, q, n) | _ => None end) t.

(** The runs of the agent executor a trace starts, in order. *)
Definition stream_calls (t : list Event) : list (list BaseMessage * gmap string PyVal) :=
  omap (fun ev => match ev with EvStream p c => Some (p, c) | _ => None end) t.

(** Some chunk carries an empty list under ["messages"]. *)
Definition has_empty_messages (chunks : list Chunk) : Prop :=
  Exists (fun chunk => chunk_messages chunk = Some []) chunks.

(** The actor and thread ids [agent_invocation] derives from a payload. *)
Definition payload_actor (d : gmap string PyVal) : PyVal :=
  default (PStr "default-user") (d !! "actor_id").

Definition payload_thread (d : gmap string PyVal) : PyVal :=
  match d !! "thread_id" with
  | Some v => v
  | None => match d !! "session_id" with
            | Some v => v
            | None => PStr "default-session"
            end
  end.

End MemoryHooks.

Module StreamDisplay.
Import PyStr AwsMemory.

(** [f"\n[Step {step_num}] {label}"] *)
Definition step_header (step_num : nat) (label : string) : string :=
  newline +:+ "[Step " +:+ str_of_nat step_num +:+ "] " +:+ label.

(** [msg.content[:500] + "..." if len(msg.content) > 500 else msg.content] *)
Definition shown_tool_text (content : string) : string :=
  if Nat.ltb 500 (py_len content)
  then py_take 500 content +:+ "..."
  else content.

Section Display.
(** How an f-string renders [tool_call['args']]. *)
Variable format_args : PyVal -> string.

Definition tool_call_line (tool_call : ToolCall) : string :=
  "   🔧 " +:+ tc_name tool_call +:+ "(" +:+ format_args (tc_args tool_call) +:+ ")".

(** [hasattr(msg, 'tool_calls') and msg.tool_calls]: only assistant messages
    have the attribute. *)
Definition requested_tool_calls (msg : BaseMessage) : list ToolCall :=
  match msg with AIMessage _ tcs => tcs | _ => [] end.

(** [print_stream_chunk(chunk, step_num)]: the texts it prints, one per call
    of [print]; it returns nothing. *)
Definition print_stream_chunk (chunk : Chunk) (step_num : nat) : list string :=
  match chunk_messages chunk with
  | None => []
  | Some new_messages =>
      match last new_messages with
      | None => []
      | Some msg =>
          if list_truthy (requested_tool_calls msg) then
            step_header step_num "🤖 Agent decided to call tool:"
              :: map tool_call_line (requested_tool_calls msg)
          else
            match msg with
            | ToolMessage content =>
                [step_header step_num "🔍 Tool response received:";
                 "   💡 " +:+ shown_tool_text content]
            | AIMessage content tcs =>
                if truthy content && negb (list_truthy tcs) then
                  [step_header step_num "✅ FINAL ANSWER:";
                   newline +:+ "🤖 " +:+ content]
                else []
            | _ => []
            end
      end
  end.
End Display.

End StreamDisplay.

(** ** lanchain_agent.py: the interactive loop *)

Module Console.
Import PyStr AwsMemory StreamDisplay.

(** What a call made by the loop can raise: an instance of [Exception], or
    [KeyboardInterrupt], which [except Exception] does not catch. *)
Inductive Signal :=
| Failure (e : PyExc)
| KeyboardInterrupt.

(** What [input("👤 You: ")] gives: a line, or what it raises. *)
Inductive InputResult :=
| Line (text : string)
| InputStops (s : Signal).

Inductive Event :=
| EvInput (r : InputResult)              (* input("👤 You: ") *)
| EvStream (prompt : list BaseMessage)   (* agent_executor.stream({"messages": prompt}, ...) *)
| EvPrint (text : string).

(** How one pass through the body of [while True] ends. *)
Inductive Next := Break | Continue.

(** How a bounded run of the loop ends: the loop was left, or the bound on
    the number of turns was reached with the loop still going. *)
Inductive LoopEnd := LoopExited | FuelSpent.

Definition exit_words : list string := ["exit"; "quit"; "bye"].

(** [user_query.lower() in ['exit', 'quit', 'bye']] *)
Definition is_exit_command (user_query : string) : bool :=
  existsb (String.eqb (lower user_query)) exit_words.

(** ["-" * 60] *)
Definition dashes : string := string_of_list_ascii (repeat "-"%char 60).

Definition error_prints (e : PyExc) : list Event :=
  [EvPrint (newline +:+ "❌ Error: " +:+ exc_str e);
   EvPrint ("Please try another question." +:+ newline)].

Definition interrupt_print : Event :=
  EvPrint (newline +:+ newline +:+ "👋 Agent interrupted. Goodbye!").

Section Loop.
Context {W : Type}.
Variable format_args : PyVal -> string.
Variable input : W -> InputResult * W.
(** [agent_executor.stream(input, stream_mode="values")]: the chunks it
    yields, and what ends it if it raises. *)
Variable agent_stream : list BaseMessage -> W -> (list Chunk * option Signal) * W.

(** The [for chunk in ...] loop of a turn: what it prints, and the exception
    of its body if a chunk makes it raise.  [step] counts the chunks;
    [final_answer] is assigned but never read in this file. *)
Fixpoint stream_turn (chunks : list Chunk) (step : nat) : list string * option PyExc :=
  match chunks with
  | [] => ([], None)
  | chunk :: rest =>
      let step := step + 1 in
      let shown := print_stream_chunk format_args chunk step in
      match chunk_messages chunk with
      | Some msgs =>
          match py_last msgs with
          | Returns _ => let '(more, failed) := stream_turn rest step in (shown ++ more, failed)
          | Raises e => (shown, Some e)
          end
      | None => let '(more, failed) := stream_turn rest step in (shown ++ more, failed)
      end
  end.

(** One pass through the body of [while True]. *)
Definition turn (w : W) : Next * W * list Event :=
  let '(r, w1) := input w in
  match r with
  | InputStops KeyboardInterrupt => (Break, w1, [EvInput r; interrupt_print])
  | InputStops (Failure e) => (Continue, w1, EvInput r :: error_prints e)
  | Line text =>
      let user_query := strip text in
      if is_exit_command user_query then
        (Break, w1,
         [EvInput r; EvPrint (newline +:+ "👋 Goodbye! Thanks for using the agent.")])
      else if negb (truthy user_query) then
        (Continue, w1, [EvInput r; EvPrint ("⚠️  Please enter a question." +:+ newline)])
      else
        let prompt := [HumanMessage user_query] in
        let '(chunks, stop, w2) := agent_stream prompt w1 in
        let '(shown, failed) := stream_turn chunks 0 in
        let started :=
          [EvInput r; EvPrint (newline +:+ dashes); EvStream prompt] ++ map EvPrint shown in
        match failed, stop with
        | Some e, _ => (Continue, w2, started ++ error_prints e)
        | None, Some (Failure e) => (Continue, w2, started ++ error_prints e)
        | None, Some KeyboardInterrupt => (Break, w2, started ++ [interrupt_print])
        | None, None =>
            (Continue, w2, started ++ [EvPrint (newline +:+ dashes +:+ newline)])
        end
  end.

(** [while True: ...], for at most [fuel] turns. *)
Fixpoint chat_loop (fuel : nat) (w : W) : LoopEnd * W * list Event :=
  match fuel with
  | O => (FuelSpent, w, [])
  | S fuel' =>
      match turn w with
      | (Break, w1, t) => (LoopExited, w1, t)
      | (Continue, w1, t) =>
          let '(r, w2, t2) := chat_loop fuel' w1 in (r, w2, t ++ t2)
      end
  end.
End Loop.

(** The prompts of the agent runs a trace starts, in order. *)
Definition stream_calls (t : list Event) : list (list BaseMessage) :=
  omap (fun ev => match ev with EvStream p => Some p | _ => None end) t.

(** The lines a trace read, in order. *)
Definition lines_read (t : list Event) : list string :=
  omap (fun ev => match ev with EvInput (Line text) => Some text | _ => None end) t.

(** A scripted terminal: the world is the list of lines still to be typed;
    once they are used up [input] raises EOFError. *)
Definition scripted_input (w : list string) : InputResult * list string :=
  match w with
  | text :: rest => (Line text, rest)
  | [] => (InputStops (Failure (mkExc "EOFError" "EOF when reading a line")), [])
  end.

(** An agent whose run depends on the prompt only and is never interrupted. *)
Definition pure_stream (run : list BaseMessage -> list Chunk * option PyExc)
    (prompt : list BaseMessage) (w : list string)
  : (list Chunk * option Signal) * list string :=
  let '(chunks, stop) := run prompt in (chunks, Failure <$> stop, w).

(** The prompt a typed line leads to, if any. *)
Definition query_of_line (text : string) : option (list BaseMessage) :=
  if truthy (strip text) then Some [HumanMessage (strip text)] else None.

End Console.

(** * Properties *)

(** ** Strings *)

Section StringFacts.
Import PyStr.

Lemma string_app_cons (c : ascii) (a b : string) :
  String c a +:+ b = String c (a +:+ b).
Proof. reflexivity. Qed.

Lemma string_app_empty_l (s : string) : "" +:+ s = s.
Proof. reflexivity. Qed.

Lemma string_app_empty_r (s : string) : s +:+ "" = s.
Proof.
  induction s as [|c s IH]; [reflexivity|]. now rewrite string_app_cons, IH.
Qed.

Lemma string_app_assoc (a b c : string) : (a +:+ b) +:+ c = a +:+ (b +:+ c).
Proof.
  induction a as [|x a IH]; [reflexivity|]. now rewrite !string_app_cons, IH.
Qed.

Lemma startswith_spec (p s : string) :
  startswith p s = true <-> exists post, s = p +:+ post.
Proof.
  revert s. induction p as [|a p IH]; intros s; simpl.
  - split; [intros _; now exists s | reflexivity].
  - destruct s as [|b s].
    + split; [discriminate | intros [post H]; discriminate].
    + destruct (Ascii.eqb_spec a b) as [->|Hne].
      * rewrite IH. split; intros [post H]; exists post.
        -- now rewrite string_app_cons, H.
        -- rewrite string_app_cons in H. now inversion H.
      * split; [discriminate|]. intros [post H].
        rewrite string_app_cons in H. inversion H. congruence.
Qed.

Lemma contains_spec (needle hay : string) :
  contains needle hay = true <-> substring_of needle hay.
Proof.
  unfold substring_of. induction hay as [|c hay IH].
  - simpl. rewrite orb_false_r, startswith_spec. split.
    + intros [post H]. now exists "", post.
    + intros [[|x pre] [post H]]; [now exists post | discriminate].
  - cbn [contains]. rewrite orb_true_iff, startswith_spec, IH. split.
    + intros [[post H] | (pre & post & H)].
      * now exists "", post.
      * exists (String c pre), post. now rewrite string_app_cons, H.
    + intros ([|x pre] & post & H).
      * left. now exists post.
      * right. inversion H. now exists pre, post.
Qed.

Lemma lower_app (a b : string) : lower (a +:+ b) = lower a +:+ lower b.
Proof.
  induction a as [|x a IH]; [reflexivity|].
  rewrite string_app_cons. simpl. now rewrite string_app_cons, IH.
Qed.

Lemma lower_app_inv (s a b : string) :
  lower s = a +:+ b ->
  exists a' b', s = a' +:+ b' /\ lower a' = a /\ lower b' = b.
Proof.
  revert s. induction a as [|x a IH]; intros s H.
  - now exists "", s.
  - destruct s as [|c s]; [discriminate|].
    rewrite string_app_cons in H. simpl in H. inversion H as [[Hc Hs]].
    destruct (IH s Hs) as (a' & b' & -> & Ha & Hb).
    exists (String c a'), b'. simpl. now rewrite Ha.
Qed.

Lemma lower_ascii_letter (c l u : ascii) :
  (97 <= N_of_ascii l <= 122)%N -> N_of_ascii u = (N_of_ascii l - 32)%N ->
  lower_ascii c = l <-> c = l \/ c = u.
Proof.
  intros Hl Hu. unfold lower_ascii.
  assert (Hc : (N_of_ascii c < 256)%N) by apply N_ascii_bounded.
  destruct ((65 <=? N_of_ascii c) && (N_of_ascii c <=? 90))%N eqn:E.
  - apply andb_true_iff in E as [E1 E2].
    apply N.leb_le in E1, E2. split.
    + intros H. right.
      rewrite <- (ascii_N_embedding c), <- (ascii_N_embedding u). f_equal.
      apply (f_equal N_of_ascii) in H.
      rewrite N_ascii_embedding in H by lia. lia.
    + intros [-> | ->]; [lia|].
      rewrite Hu. replace (N_of_ascii l - 32 + 32)%N with (N_of_ascii l) by lia.
      apply ascii_N_embedding.
  - split; [now left|]. intros [-> | ->]; [reflexivity|].
    apply andb_false_iff in E. rewrite !N.leb_gt in E. lia.
Qed.

Lemma lower_is_yes (s : string) :
  lower s = "yes" <->
  exists c1 c2 c3, s = String c1 (String c2 (String c3 "")) /\ spells_yes c1 c2 c3.
Proof.
  unfold spells_yes.
  pose proof (fun c => lower_ascii_letter c "y" "Y") as Ly.
  pose proof (fun c => lower_ascii_letter c "e" "E") as Le.
  pose proof (fun c => lower_ascii_letter c "s" "S") as Ls.
  split.
  - destruct s as [|c1 [|c2 [|c3 [|c4 s]]]]; simpl; try discriminate.
    intros H. injection H as H1 H2 H3. exists c1, c2, c3. split; [reflexivity|].
    rewrite Ly in H1 by (vm_compute; intuition discriminate).
    rewrite Le in H2 by (vm_compute; intuition discriminate).
    rewrite Ls in H3 by (vm_compute; intuition discriminate).
    tauto.
  - intros (c1 & c2 & c3 & -> & H1 & H2 & H3). simpl.
    rewrite <- Ly in H1 by (vm_compute; intuition discriminate).
    rewrite <- Le in H2 by (vm_compute; intuition discriminate).
    rewrite <- Ls in H3 by (vm_compute; intuition discriminate).
    now rewrite H1, H2, H3.
Qed.

(** ["yes" in text.lower()] is the case-insensitive substring test. *)
Lemma yes_in_lower (text : string) :
  contains "yes" (lower text) = true <-> contains_yes_ignoring_case text.
Proof.
  rewrite contains_spec. unfold substring_of, contains_yes_ignoring_case. split.
  - intros (pre & post & H).
    apply lower_app_inv in H as (pre' & rest & -> & _ & H).
    apply lower_app_inv in H as (mid & post' & -> & Hmid & _).
    apply lower_is_yes in Hmid as (c1 & c2 & c3 & -> & Hy).
    now exists pre', c1, c2, c3, post'.
  - intros (pre & c1 & c2 & c3 & post & -> & Hy).
    exists (lower pre), (lower post).
    change (String c1 (String c2 (String c3 post)))
      with (String c1 (String c2 (String c3 "")) +:+ post).
    rewrite !lower_app. f_equal. f_equal.
    apply lower_is_yes. now exists c1, c2, c3.
Qed.
End StringFacts.

(** ** langgraph_agent.py: the nodes *)

Section NodeFacts.
Import PyStr LangGraph.
Context {W : Type}.
Variable llm_invoke : list BaseMessage -> W -> outcome string * W.
Variable search_tool_invoke : string -> W -> outcome (list SearchResult) * W.

Lemma py_last_some {A} (l : list A) (x : A) : last l = Some x -> py_last l = Returns x.
Proof. unfold py_last. now intros ->. Qed.

Lemma py_last_nil {A} : exists e, @py_last A [] = Raises e.
Proof. now eexists. Qed.

(** What [should_search_node] does once the last message is known. *)
Lemma should_search_node_run (state : AgentState) (last_msg : Message) (w : W) :
  last (messages state) = Some last_msg ->
  should_search_node llm_invoke state w =
    match llm_invoke (decide_prompt last_msg) w with
    | (Returns response, w1) =>
        (Returns {| upd_messages := None;
                    upd_needs_search := Some (contains "yes" (lower response)) |},
         w1, [EvLLM (decide_prompt last_msg)])
    | (Raises e, w1) => (Raises e, w1, [EvLLM (decide_prompt last_msg)])
    end.
Proof.
  intros Hlast. unfold should_search_node, bind, lift, extern, ret.
  rewrite (py_last_some _ _ Hlast).
  destruct (llm_invoke (decide_prompt last_msg) w) as [[response|e] w1]; reflexivity.
Qed.

(** What [search_node] does once the last message is known. *)
Lemma search_node_run (state : AgentState) (last_msg : Message) (w : W) :
  last (messages state) = Some last_msg ->
  search_node search_tool_invoke state w =
    match search_tool_invoke (content last_msg) w with
    | (Returns results, w1) =>
        (Returns {| upd_messages :=
                      Some [search_message (content last_msg)
                              (join newline (result_lines results))];
                    upd_needs_search := None |},
         w1, [EvSearch (content last_msg)])
    | (Raises e, w1) => (Raises e, w1, [EvSearch (content last_msg)])
    end.
Proof.
  intros Hlast. unfold search_node, bind, lift, extern, ret.
  rewrite (py_last_some _ _ Hlast).
  destruct (search_tool_invoke (content last_msg) w) as [[results|e] w1]; reflexivity.
Qed.

Lemma enumerate_from_lookup {A} (l : list A) (start i : nat) :
  enumerate_from start l !! i = (fun x => (start + i, x)) <$> l !! i.
Proof.
  revert start i. induction l as [|x l IH]; intros start [|i]; simpl; try reflexivity.
  - now rewrite Nat.add_0_r.
  - rewrite IH. now replace (S start + i) with (start + S i) by lia.
Qed.

Lemma enumerate_from_length {A} (l : list A) (start : nat) :
  length (enumerate_from start l) = length l.
Proof. revert start. induction l; intros; simpl; auto. Qed.

Lemma result_lines_lookup (results : list SearchResult) (i : nat) (res : SearchResult) :
  results !! i = Some res ->
  result_lines results !! i =
    Some ("Result " +:+ str_of_nat (i + 1) +:+ ": " +:+ res_content res).
Proof.
  intros H. unfold result_lines, enumerate.
  rewrite list_lookup_fmap, enumerate_from_lookup, H. reflexivity.
Qed.

Lemma result_lines_length (results : list SearchResult) :
  length (result_lines results) = length results.
Proof.
  unfold result_lines, enumerate. now rewrite length_map, enumerate_from_length.
Qed.
End NodeFacts.

(** C2: on a state with at least one message the decision node calls the
    model adapter exactly once (no retry), and when the adapter answers it
    sets [needs_search] to true if and only if the answer contains "yes" as
    a substring, case ignored; every other answer gives false. *)
Theorem decide_sets_needs_search_iff_yes {W : Type}
    (llm_invoke : list LangGraph.BaseMessage -> W -> outcome string * W)
    (state : LangGraph.AgentState) (last_msg : LangGraph.Message) (w : W) :
  last (LangGraph.messages state) = Some last_msg ->
  LangGraph.llm_calls (trace_of (LangGraph.should_search_node llm_invoke state w))
    = [LangGraph.decide_prompt last_msg] /\
  forall (response : string) (w1 : W),
    llm_invoke (LangGraph.decide_prompt last_msg) w = (Returns response, w1) ->
    exists flag : bool,
      result_of (LangGraph.should_search_node llm_invoke state w)
        = Returns {| LangGraph.upd_messages := None;
                     LangGraph.upd_needs_search := Some flag |} /\
      LangGraph.needs_search
        (LangGraph.apply_update state
           {| LangGraph.upd_messages := None; LangGraph.upd_needs_search := Some flag |})
        = flag /\
      (flag = true <-> PyStr.contains_yes_ignoring_case response) /\
      (flag = false <-> ~ PyStr.contains_yes_ignoring_case response).
Proof.
  intros Hlast. rewrite (should_search_node_run _ _ _ _ Hlast). split.
  - destruct (llm_invoke _ w) as [[response|e] w1]; reflexivity.
  - intros response w1 ->. exists (PyStr.contains "yes" (PyStr.lower response)).
    repeat split; try reflexivity.
    + apply yes_in_lower.
    + apply yes_in_lower.
    + intros Hf Hyes. apply yes_in_lower in Hyes. congruence.
    + intros Hno. destruct (PyStr.contains _ _) eqn:E; [|reflexivity].
      exfalso. apply Hno. now apply yes_in_lower.
Qed.

Lemma decide_sets_needs_search_iff_yes_witness :
  LangGraph.llm_calls
    (trace_of (LangGraph.should_search_node LangGraph.scripted_llm
                 (LangGraph.mkState [LangGraph.mkMessage "user" "weather today?"] false)
                 ["YeS, search is needed"]))
    = [LangGraph.decide_prompt (LangGraph.mkMessage "user" "weather today?")] /\
  result_of (LangGraph.should_search_node LangGraph.scripted_llm
               (LangGraph.mkState [LangGraph.mkMessage "user" "weather today?"] false)
               ["YeS, search is needed"])
    = Returns {| LangGraph.upd_messages := None; LangGraph.upd_needs_search := Some true |}.
Proof.
  destruct (decide_sets_needs_search_iff_yes LangGraph.scripted_llm
              (LangGraph.mkState [LangGraph.mkMessage "user" "weather today?"] false)
              (LangGraph.mkMessage "user" "weather today?") ["YeS, search is needed"]
              eq_refl) as [Hcalls Hflag].
  split; [exact Hcalls|].
  destruct (Hflag "YeS, search is needed" [] eq_refl) as (flag & Hresult & _ & Hyes & _).
  assert (Htrue : flag = true).
  { apply Hyes. exists "", "Y"%char, "e"%char, "S"%char, ", search is needed".
    split; [reflexivity|]. unfold PyStr.spells_yes. tauto. }
  rewrite Hresult, Htrue. reflexivity.
Defined.

(** C4: when the search adapter returns a list of results, the search node
    formats result number [i] (counting from 1) as the line
    "Result i: <content>", joins the lines with newlines, and appends exactly
    one assistant-role message whose content holds that block; for the
    results ["a","b"] the block is "Result 1: a\nResult 2: b". *)
Theorem search_node_formats_results {W : Type}
    (search_tool_invoke : string -> W -> outcome (list LangGraph.SearchResult) * W)
    (state : LangGraph.AgentState) (last_msg : LangGraph.Message)
    (results : list LangGraph.SearchResult) (w w1 : W) :
  last (LangGraph.messages state) = Some last_msg ->
  search_tool_invoke (LangGraph.content last_msg) w = (Returns results, w1) ->
  let lines := LangGraph.result_lines results in
  let block := PyStr.join PyStr.newline lines in
  (length lines = length results /\
   forall i res, results !! i = Some res ->
     lines !! i = Some ("Result " +:+ PyStr.str_of_nat (i + 1) +:+ ": "
                        +:+ LangGraph.res_content res)) /\
  (exists m : LangGraph.Message,
     result_of (LangGraph.search_node search_tool_invoke state w)
       = Returns {| LangGraph.upd_messages := Some [m];
                    LangGraph.upd_needs_search := None |} /\
     LangGraph.role m = "assistant" /\
     LangGraph.content m
       = "Search results for '" +:+ LangGraph.content last_msg +:+ "':"
         +:+ PyStr.newline +:+ block /\
     PyStr.substring_of block (LangGraph.content m) /\
     LangGraph.messages
       (LangGraph.apply_update state
          {| LangGraph.upd_messages := Some [m]; LangGraph.upd_needs_search := None |})
       = LangGraph.messages state ++ [m]) /\
  PyStr.join PyStr.newline
    (LangGraph.result_lines [LangGraph.mkResult "u1" "a"; LangGraph.mkResult "u2" "b"])
    = "Result 1: a" +:+ PyStr.newline +:+ "Result 2: b".
Proof.
  intros Hlast Hcall lines block. split; [|split].
  - split; [apply result_lines_length | apply result_lines_lookup].
  - rewrite (search_node_run _ _ _ _ Hlast), Hcall.
    eexists. split; [reflexivity|]. repeat split.
    exists ("Search results for '" +:+ LangGraph.content last_msg +:+ "':" +:+ PyStr.newline), "".
    cbn [LangGraph.content LangGraph.search_message].
    now rewrite string_app_empty_r, !string_app_assoc.
  - reflexivity.
Qed.

Lemma search_node_formats_results_witness :
  exists m : LangGraph.Message,
    result_of (LangGraph.search_node
                 (LangGraph.fixed_search [LangGraph.mkResult "u1" "a"; LangGraph.mkResult "u2" "b"])
                 (LangGraph.mkState [LangGraph.mkMessage "user" "q"] false) ([] : list string))
      = Returns {| LangGraph.upd_messages := Some [m]; LangGraph.upd_needs_search := None |} /\
    LangGraph.content m
      = "Search results for 'q':" +:+ PyStr.newline +:+ "Result 1: a" +:+ PyStr.newline
        +:+ "Result 2: b".
Proof.
  destruct (search_node_formats_results
              (LangGraph.fixed_search [LangGraph.mkResult "u1" "a"; LangGraph.mkResult "u2" "b"])
              (LangGraph.mkState [LangGraph.mkMessage "user" "q"] false)
              (LangGraph.mkMessage "user" "q")
              [LangGraph.mkResult "u1" "a"; LangGraph.mkResult "u2" "b"]
              ([] : list string) [] eq_refl eq_refl)
    as (_ & (m & Hrun & _ & Hcontent & _) & _).
  exists m. split; [exact Hrun | exact Hcontent].
Defined.

(** ** langgraph_agent.py: the prompt of the respond node *)

Section RespondFacts.
Import PyStr LangGraph.

(** The scan keeps the latest user content and the latest search context. *)
Lemma respond_scan_fold (msgs : list Message) (acc : option string * option string) :
  fold_left respond_scan msgs acc =
    (from_option Some acc.1 (last_user_content msgs),
     from_option Some acc.2 (last_search_context msgs)).
Proof.
  induction msgs as [|m msgs IH] using rev_ind.
  - now destruct acc.
  - rewrite fold_left_app. cbn [fold_left]. rewrite IH.
    unfold last_user_content, last_search_context, respond_scan.
    rewrite !List.filter_app. cbn [List.filter].
    unfold is_search_context, is_user.
    destruct (String.eqb (role m) "user"); cbn [negb andb fst snd].
    + now rewrite last_snoc, app_nil_r.
    + destruct (String.eqb (role m) "assistant" && contains "Search results" (content m)).
      * now rewrite last_snoc, app_nil_r.
      * now rewrite !app_nil_r.
Qed.

Lemma marker_truthy (s : string) : contains "Search results" s = true -> truthy s = true.
Proof. now destruct s. Qed.

Lemma last_search_context_truthy (msgs : list Message) (sr : string) :
  last_search_context msgs = Some sr -> truthy sr = true.
Proof.
  unfold last_search_context. intros H.
  destruct (last (List.filter is_search_context msgs)) as [m|] eqn:E; [|discriminate].
  injection H as <-. apply last_Some_elem_of, list_elem_of_In, List.filter_In in E.
  destruct E as [_ E]. unfold is_search_context in E.
  apply andb_true_iff in E as [_ E]. now apply marker_truthy.
Qed.

Lemma respond_prompt_some (state : AgentState) (last_msg : Message) :
  last (messages state) = Some last_msg ->
  respond_prompt state =
    Returns (SystemMessage respond_instruction :: LangGraph.context_messages (messages state)
             ++ [HumanMessage (LangGraph.closing_query (messages state) last_msg)]).
Proof.
  intros Hlast. unfold respond_prompt, LangGraph.context_messages, LangGraph.closing_query.
  rewrite respond_scan_fold, (py_last_some _ _ Hlast). cbn [fst snd].
  destruct (last_search_context (messages state)) as [sr|] eqn:Es; cbn [from_option].
  - rewrite (last_search_context_truthy _ _ Es).
    destruct (last_user_content (messages state)) as [q|]; cbn [from_option];
      [destruct (truthy q)|]; reflexivity.
  - destruct (last_user_content (messages state)) as [q|]; cbn [from_option];
      [destruct (truthy q)|]; reflexivity.
Qed.

Lemma respond_prompt_nil (flag : bool) :
  exists e, respond_prompt (mkState [] flag) = Raises e.
Proof. now eexists. Qed.

Lemma respond_node_run {W : Type}
    (llm_invoke : list BaseMessage -> W -> outcome string * W)
    (state : AgentState) (w : W) :
  respond_node llm_invoke state w =
    match respond_prompt state with
    | Returns prompt =>
        match llm_invoke prompt w with
        | (Returns response, w1) =>
            (Returns {| upd_messages := Some [ {| role := "assistant"; content := response |} ];
                        upd_needs_search := None |}, w1, [EvLLM prompt])
        | (Raises e, w1) => (Raises e, w1, [EvLLM prompt])
        end
    | Raises e => (Raises e, w, [])
    end.
Proof.
  unfold respond_node, bind, lift, extern, ret.
  destruct (respond_prompt state) as [prompt|e]; [|reflexivity].
  destruct (llm_invoke prompt w) as [[response|e] w1]; reflexivity.
Qed.
End RespondFacts.

(** C1: on the history [user:"a", user:"b"] the first user-role message has
    content "a", yet the prompt assembled by the respond node, and sent to
    the model adapter, ends with the user-role message "b". *)
Theorem respond_prompt_ends_with_latest_user_message :
  let state :=
    LangGraph.mkState [LangGraph.mkMessage "user" "a"; LangGraph.mkMessage "user" "b"] false in
  LangGraph.first_user_content (LangGraph.messages state) = Some "a" /\
  LangGraph.respond_prompt state
    = Returns [LangGraph.SystemMessage LangGraph.respond_instruction;
               LangGraph.HumanMessage "b"] /\
  forall (W : Type) (llm_invoke : list LangGraph.BaseMessage -> W -> outcome string * W)
         (w : W),
    LangGraph.llm_calls (trace_of (LangGraph.respond_node llm_invoke state w))
      = [[LangGraph.SystemMessage LangGraph.respond_instruction;
          LangGraph.HumanMessage "b"]].
Proof.
  cbv zeta. split; [reflexivity|]. split; [reflexivity|].
  intros W llm_invoke w. rewrite respond_node_run.
  change (LangGraph.respond_prompt _)
    with (Returns [LangGraph.SystemMessage LangGraph.respond_instruction;
                   LangGraph.HumanMessage "b"]).
  cbv iota beta. destruct (llm_invoke _ w) as [[response|e] w1]; reflexivity.
Qed.

(** C7: every prompt the respond node passes to the model adapter ends with
    a user-role message.  On a state with at least one message the node
    passes exactly one prompt: the system instruction, then the search
    context when a search-results assistant message is in the history, then
    the user query as the closing user-role message. *)
Theorem respond_prompt_ends_with_user_message {W : Type}
    (llm_invoke : list LangGraph.BaseMessage -> W -> outcome string * W)
    (state : LangGraph.AgentState) (w : W) :
  (forall prompt,
     prompt ∈ LangGraph.llm_calls (trace_of (LangGraph.respond_node llm_invoke state w)) ->
     exists q, last prompt = Some (LangGraph.HumanMessage q)) /\
  (forall last_msg,
     last (LangGraph.messages state) = Some last_msg ->
     exists prompt,
       LangGraph.llm_calls (trace_of (LangGraph.respond_node llm_invoke state w)) = [prompt] /\
       prompt = LangGraph.SystemMessage LangGraph.respond_instruction
                  :: LangGraph.context_messages (LangGraph.messages state)
                  ++ [LangGraph.HumanMessage
                        (LangGraph.closing_query (LangGraph.messages state) last_msg)] /\
       last prompt
         = Some (LangGraph.HumanMessage (LangGraph.closing_query (LangGraph.messages state) last_msg)) /\
       (forall sr, LangGraph.last_search_context (LangGraph.messages state) = Some sr ->
          prompt = [LangGraph.SystemMessage LangGraph.respond_instruction;
                    LangGraph.AIMessage sr;
                    LangGraph.HumanMessage
                      (LangGraph.closing_query (LangGraph.messages state) last_msg)]) /\
       (forall q, LangGraph.last_user_content (LangGraph.messages state) = Some q ->
          q <> "" -> LangGraph.closing_query (LangGraph.messages state) last_msg = q)).
Proof.
  assert (Hsome : forall last_msg, last (LangGraph.messages state) = Some last_msg ->
            LangGraph.llm_calls (trace_of (LangGraph.respond_node llm_invoke state w))
            = [LangGraph.SystemMessage LangGraph.respond_instruction
                 :: LangGraph.context_messages (LangGraph.messages state)
                 ++ [LangGraph.HumanMessage
                       (LangGraph.closing_query (LangGraph.messages state) last_msg)]]).
  { intros last_msg Hlast. rewrite respond_node_run, (respond_prompt_some _ _ Hlast).
    destruct (llm_invoke _ w) as [[response|e] w1]; reflexivity. }
  split.
  - intros prompt Hin. destruct (last (LangGraph.messages state)) as [last_msg|] eqn:Hlast.
    + rewrite (Hsome _ eq_refl) in Hin. apply list_elem_of_singleton in Hin as ->.
      eexists. rewrite app_comm_cons. apply last_snoc.
    + apply last_None in Hlast. destruct state as [msgs flag]. simpl in Hlast. subst msgs.
      rewrite respond_node_run in Hin. destruct (respond_prompt_nil flag) as [e He].
      rewrite He in Hin. simpl in Hin. now apply elem_of_nil in Hin.
  - intros last_msg Hlast. eexists. split; [apply (Hsome _ Hlast)|].
    split; [reflexivity|]. split; [rewrite app_comm_cons; apply last_snoc|]. split.
    + intros sr Hsr. unfold LangGraph.context_messages. now rewrite Hsr.
    + intros q Hq Hne. unfold LangGraph.closing_query. rewrite Hq.
      destruct q; [contradiction | reflexivity].
Qed.

Lemma respond_prompt_ends_with_user_message_witness :
  exists prompt,
    LangGraph.llm_calls
      (trace_of (LangGraph.respond_node LangGraph.scripted_llm
         (LangGraph.mkState
            [LangGraph.mkMessage "user" "weather?";
             LangGraph.mkMessage "assistant" "Search results for 'weather?': sunny"] false)
         ["It is sunny."])) = [prompt] /\
    last prompt = Some (LangGraph.HumanMessage "weather?").
Proof.
  destruct (proj2 (respond_prompt_ends_with_user_message LangGraph.scripted_llm
              (LangGraph.mkState
                 [LangGraph.mkMessage "user" "weather?";
                  LangGraph.mkMessage "assistant" "Search results for 'weather?': sunny"] false)
              ["It is sunny."])
              (LangGraph.mkMessage "assistant" "Search results for 'weather?': sunny") eq_refl)
    as (prompt & Hcalls & _ & Hlast & _).
  exists prompt. split; [exact Hcalls | exact Hlast].
Defined.

(** ** langgraph_agent.py: the graph *)

Section GraphFacts.
Import PyStr LangGraph.
Context {W : Type}.
Variable llm_invoke : list BaseMessage -> W -> outcome string * W.
Variable search_tool_invoke : string -> W -> outcome (list SearchResult) * W.

Local Abbreviation graph := (workflow llm_invoke search_tool_invoke).

Lemma workflow_entry : entry_point graph = Some "decide".
Proof. reflexivity. Qed.

Lemma workflow_decide : nodes graph !! "decide" = Some (should_search_node llm_invoke).
Proof. reflexivity. Qed.

Lemma workflow_search : nodes graph !! "search" = Some (search_node search_tool_invoke).
Proof. reflexivity. Qed.

Lemma workflow_respond : nodes graph !! "respond" = Some (respond_node llm_invoke).
Proof. reflexivity. Qed.

Lemma next_after_decide (state : AgentState) :
  next_node graph "decide" state
    = Returns (if needs_search state then "search" else "respond").
Proof.
  unfold next_node.
  replace (branches graph !! "decide")
    with (Some (route_after_decision,
                <["search" := "search"]> (<["respond" := "respond"]> (∅ : gmap string string))))
    by reflexivity.
  unfold route_after_decision. destruct (needs_search state); reflexivity.
Qed.

Lemma next_after_search (state : AgentState) :
  next_node graph "search" state = Returns "respond".
Proof. reflexivity. Qed.

Lemma next_after_respond (state : AgentState) :
  next_node graph "respond" state = Returns END.
Proof. reflexivity. Qed.

(** One step of the executor at a node of the graph. *)
Lemma run_from_node (g : @StateGraph W) (fuel : nat) (cur : string) (fn : @NodeFn W)
    (state : AgentState) (w : W) :
  String.eqb cur END = false ->
  nodes g !! cur = Some fn ->
  run_from g (S fuel) cur state w =
    match fn state w with
    | (Returns update, w1, t1) =>
        match next_node g cur (apply_update state update) with
        | Returns dst =>
            let '(r, w2, t2) := run_from g fuel dst (apply_update state update) w1 in
            (r, w2, EvNode cur :: t1 ++ t2)
        | Raises e => (Raises e, w1, EvNode cur :: t1 ++ [])
        end
    | (Raises e, w1, t1) => (Raises e, w1, EvNode cur :: t1)
    end.
Proof.
  intros Hcur Hfn. cbn [run_from]. unfold NodeFn in *. rewrite Hcur, Hfn.
  unfold bind, emit, lift. destruct (fn state w) as [[[update|e] w1] t1]; [|reflexivity].
  destruct (next_node g cur (apply_update state update)) as [dst|e]; [|reflexivity].
  destruct (run_from g fuel dst (apply_update state update) w1) as [[r w2] t2].
  reflexivity.
Qed.

Lemma apply_update_flag (state : AgentState) (flag : bool) :
  apply_update state {| upd_messages := None; upd_needs_search := Some flag |}
    = {| messages := messages state; needs_search := flag |}.
Proof. unfold apply_update. cbn. now rewrite app_nil_r. Qed.

Lemma apply_update_messages (state : AgentState) (new : list Message) :
  apply_update state {| upd_messages := Some new; upd_needs_search := None |}
    = {| messages := messages state ++ new; needs_search := needs_search state |}.
Proof. reflexivity. Qed.

Lemma run_from_end (g : @StateGraph W) (fuel : nat) (state : AgentState) (w : W) :
  run_from g fuel END state w = (Returns state, w, []).
Proof. destruct fuel; reflexivity. Qed.
End GraphFacts.

(** Closes the facts about the visited nodes once the run is evaluated. *)
Ltac path_leaf_all :=
  split; [reflexivity|];
  split; [apply (bool_decide_unpack _); vm_compute; reflexivity|];
  first [ left; eexists; reflexivity | right; eexists; reflexivity ].

Ltac path_leaf :=
  split; [path_leaf_all | intros final Hfinal; discriminate Hfinal].

(** C3: the graph starts at [decide]; [decide] leads to [search] when
    [needs_search] is true and to [respond] otherwise, [search] leads to
    [respond], [respond] leads to END.  No invocation enters a node twice,
    and the nodes it enters are an initial part of one of the two paths.  An
    invocation that completes entered decide, search, respond (one call to
    the search adapter) when the decision node set [needs_search], and
    decide, respond (no call to the search adapter) when it did not. *)
Theorem graph_takes_one_of_two_paths {W : Type}
    (llm_invoke : list LangGraph.BaseMessage -> W -> outcome string * W)
    (search_tool_invoke : string -> W -> outcome (list LangGraph.SearchResult) * W)
    (inputs : LangGraph.AgentState) (w : W) :
  let graph := LangGraph.workflow llm_invoke search_tool_invoke in
  let run := LangGraph.app llm_invoke search_tool_invoke inputs w in
  (LangGraph.entry_point graph = Some "decide" /\
   (forall st, LangGraph.next_node graph "decide" st
               = Returns (if LangGraph.needs_search st then "search" else "respond")) /\
   (forall st, LangGraph.next_node graph "search" st = Returns "respond") /\
   (forall st, LangGraph.next_node graph "respond" st = Returns LangGraph.END)) /\
  (head (LangGraph.visited (trace_of run)) = Some "decide" /\
   NoDup (LangGraph.visited (trace_of run)) /\
   (LangGraph.visited (trace_of run) `prefix_of` ["decide"; "search"; "respond"] \/
    LangGraph.visited (trace_of run) `prefix_of` ["decide"; "respond"])) /\
  (forall final,
     result_of run = Returns final ->
     LangGraph.visited (trace_of run)
       = (if LangGraph.needs_search final
          then ["decide"; "search"; "respond"] else ["decide"; "respond"]) /\
     length (LangGraph.search_calls (trace_of run))
       = (if LangGraph.needs_search final then 1 else 0) /\
     exists last_msg response w1,
       last (LangGraph.messages inputs) = Some last_msg /\
       llm_invoke (LangGraph.decide_prompt last_msg) w = (Returns response, w1) /\
       LangGraph.needs_search final = PyStr.contains "yes" (PyStr.lower response)).
Proof.
  cbv zeta. split.
  { split; [reflexivity|]. split; [apply next_after_decide|].
    split; [apply next_after_search | apply next_after_respond]. }
  unfold LangGraph.app, LangGraph.invoke. rewrite workflow_entry.
  unfold LangGraph.recursion_limit.
  rewrite (run_from_node _ _ "decide" _ _ _ eq_refl (workflow_decide _ _)).
  destruct (last (LangGraph.messages inputs)) as [last_msg|] eqn:Hlast.
  2: { apply last_None in Hlast. destruct inputs as [msgs flag]. simpl in Hlast. subst msgs.
       cbn. path_leaf. }
  rewrite (should_search_node_run _ _ _ _ Hlast).
  destruct (llm_invoke (LangGraph.decide_prompt last_msg) w) as [[response|e] w1] eqn:Hllm;
    [|cbn; path_leaf].
  rewrite next_after_decide, apply_update_flag. cbn [LangGraph.needs_search].
  destruct (PyStr.contains "yes" (PyStr.lower response)) eqn:Hflag.
  - rewrite (run_from_node _ _ "search" _ _ _ eq_refl (workflow_search _ _)).
    rewrite (search_node_run _ (LangGraph.mkState (LangGraph.messages inputs) true)
               last_msg _ Hlast).
    destruct (search_tool_invoke (LangGraph.content last_msg) w1) as [[results|e] w2];
      [|cbn; path_leaf].
    rewrite next_after_search, apply_update_messages. cbn [LangGraph.needs_search].
    rewrite (run_from_node _ _ "respond" _ _ _ eq_refl (workflow_respond _ _)).
    rewrite respond_node_run.
    erewrite respond_prompt_some by (cbn [LangGraph.messages]; apply last_snoc).
    destruct (llm_invoke _ w2) as [[answer|e] w3]; [|cbn; path_leaf].
    rewrite next_after_respond, apply_update_messages, run_from_end.
    cbn. split; [path_leaf_all|]. intros final [= <-]. cbn.
    split; [reflexivity|]. split; [reflexivity|].
    exists last_msg, response, w1. now rewrite Hflag.
  - rewrite (run_from_node _ _ "respond" _ _ _ eq_refl (workflow_respond _ _)).
    rewrite respond_node_run.
    rewrite (respond_prompt_some (LangGraph.mkState (LangGraph.messages inputs) false)
               last_msg Hlast).
    destruct (llm_invoke _ w1) as [[answer|e] w3]; [|cbn; path_leaf].
    rewrite next_after_respond, apply_update_messages, run_from_end.
    cbn. split; [path_leaf_all|]. intros final [= <-]. cbn.
    split; [reflexivity|]. split; [reflexivity|].
    exists last_msg, response, w1. now rewrite Hflag.
Qed.

Lemma graph_takes_one_of_two_paths_witness :
  result_of (LangGraph.app LangGraph.scripted_llm
               (LangGraph.fixed_search [LangGraph.mkResult "u1" "a"])
               (LangGraph.mkState [LangGraph.mkMessage "user" "weather today?"] false)
               ["Yes"; "sunny"])
    = Returns (LangGraph.mkState
                 [LangGraph.mkMessage "user" "weather today?";
                  LangGraph.search_message "weather today?" "Result 1: a";
                  LangGraph.mkMessage "assistant" "sunny"] true) /\
  LangGraph.visited
    (trace_of (LangGraph.app LangGraph.scripted_llm
                 (LangGraph.fixed_search [LangGraph.mkResult "u1" "a"])
                 (LangGraph.mkState [LangGraph.mkMessage "user" "weather today?"] false)
                 ["Yes"; "sunny"]))
    = ["decide"; "search"; "respond"].
Proof.
  split; [reflexivity|].
  destruct (graph_takes_one_of_two_paths LangGraph.scripted_llm
              (LangGraph.fixed_search [LangGraph.mkResult "u1" "a"])
              (LangGraph.mkState [LangGraph.mkMessage "user" "weather today?"] false)
              ["Yes"; "sunny"]) as (_ & _ & Hdone).
  destruct (Hdone (LangGraph.mkState
                     [LangGraph.mkMessage "user" "weather today?";
                      LangGraph.search_message "weather today?" "Result 1: a";
                      LangGraph.mkMessage "assistant" "sunny"] true) eq_refl) as (Hpath & _).
  exact Hpath.
Defined.

(** C8: when the search adapter raises, the search node raises the same
    exception: it returns no update, so no message is appended, and the
    executor stops there with that exception without entering [respond]. *)
Theorem search_failure_propagates {W : Type}
    (llm_invoke : list LangGraph.BaseMessage -> W -> outcome string * W)
    (search_tool_invoke : string -> W -> outcome (list LangGraph.SearchResult) * W)
    (state : LangGraph.AgentState) (last_msg : LangGraph.Message) (e : PyExc) (w w1 : W) :
  last (LangGraph.messages state) = Some last_msg ->
  search_tool_invoke (LangGraph.content last_msg) w = (Raises e, w1) ->
  LangGraph.search_node search_tool_invoke state w
    = (Raises e, w1, [LangGraph.EvSearch (LangGraph.content last_msg)]) /\
  forall fuel,
    LangGraph.run_from (LangGraph.workflow llm_invoke search_tool_invoke)
      (S fuel) "search" state w
    = (Raises e, w1,
       [LangGraph.EvNode "search"; LangGraph.EvSearch (LangGraph.content last_msg)]).
Proof.
  intros Hlast Hcall.
  assert (Hnode : LangGraph.search_node search_tool_invoke state w
                  = (Raises e, w1, [LangGraph.EvSearch (LangGraph.content last_msg)])).
  { now rewrite (search_node_run _ _ _ _ Hlast), Hcall. }
  split; [exact Hnode|]. intros fuel.
  rewrite (run_from_node _ _ "search" _ _ _ eq_refl (workflow_search _ _)).
  now rewrite Hnode.
Qed.

Lemma search_failure_propagates_witness :
  LangGraph.app LangGraph.scripted_llm
    (LangGraph.failing_search (mkExc "ConnectionError" "search is down"))
    (LangGraph.mkState [LangGraph.mkMessage "user" "weather today?"] false)
    ["yes"; "sunny"]
  = (Raises (mkExc "ConnectionError" "search is down"), ["sunny"],
     [LangGraph.EvNode "decide";
      LangGraph.EvLLM (LangGraph.decide_prompt (LangGraph.mkMessage "user" "weather today?"));
      LangGraph.EvNode "search"; LangGraph.EvSearch "weather today?"]) /\
  LangGraph.search_node
    (LangGraph.failing_search (mkExc "ConnectionError" "search is down"))
    (LangGraph.mkState [LangGraph.mkMessage "user" "weather today?"] true) ["sunny"]
  = (Raises (mkExc "ConnectionError" "search is down"), ["sunny"],
     [LangGraph.EvSearch "weather today?"]).
Proof.
  split; [reflexivity|].
  apply (search_failure_propagates LangGraph.scripted_llm
           (LangGraph.failing_search (mkExc "ConnectionError" "search is down"))
           (LangGraph.mkState [LangGraph.mkMessage "user" "weather today?"] true)
           (LangGraph.mkMessage "user" "weather today?")
           (mkExc "ConnectionError" "search is down") ["sunny"] ["sunny"]);
    reflexivity.
Defined.

(** ** lanchain_agent_aws_memory.py: the memory pre-hook *)

Section HookFacts.
Import PyStr AwsMemory.
Context {W : Type}.
Variable uuid4 : W -> string * W.
Variable store_put : Namespace -> string -> BaseMessage -> W -> outcome unit * W.
Variable store_search : Namespace -> string -> nat -> W -> outcome (list Item) * W.

(** The lookup of preferences always completes, whatever the store does,
    and leaves behind one lookup event followed by console output. *)
Lemma retrieve_preferences_run (actor_id : PyVal) (msg : BaseMessage) (w : W) :
  exists w1 prints,
    retrieve_preferences store_search actor_id msg w
      = (Returns tt, w1,
         EvSearch (PStr "preferences", actor_id) (msg_content msg) 5 :: prints) /\
    Forall is_print prints /\
    w1 = (store_search (PStr "preferences", actor_id) (msg_content msg) 5 w).2 /\
    forall e, (store_search (PStr "preferences", actor_id) (msg_content msg) 5 w).1 = Raises e ->
      prints = [EvPrint ("Memory retrieval error: " +:+ exc_str e)].
Proof.
  unfold retrieve_preferences, try_except, bind, extern, emit, ret.
  destruct (store_search _ _ 5 w) as [[[|item items]|e] w1]; cbn.
  - exists w1, []. repeat split; [constructor | discriminate].
  - eexists w1, [_]. repeat split; [|discriminate].
    constructor; [now eexists | constructor].
  - eexists w1, [_]. repeat split.
    + constructor; [now eexists | constructor].
    + now intros e' [= <-].
Qed.

(** The loop over the reversed history acts on the latest user message. *)
Lemma save_last_human_latest (namespace : Namespace) (actor_id : PyVal)
    (msgs : list BaseMessage) :
  save_last_human uuid4 store_put store_search namespace actor_id (reverse msgs) =
    match latest_human msgs with
    | Some msg =>
        save_last_human uuid4 store_put store_search namespace actor_id [msg]
    | None => ret tt
    end.
Proof.
  unfold latest_human. induction msgs as [|m msgs IH] using rev_ind; [reflexivity|].
  rewrite reverse_snoc, List.filter_app. cbn [List.filter save_last_human].
  destruct (is_human m) eqn:Hm.
  - rewrite last_snoc. cbn [save_last_human]. now rewrite Hm.
  - now rewrite app_nil_r.
Qed.

Lemma latest_human_is_human (msgs : list BaseMessage) (msg : BaseMessage) :
  latest_human msgs = Some msg -> is_human msg = true.
Proof.
  unfold latest_human. intros H.
  apply last_Some_elem_of, list_elem_of_In, List.filter_In in H. tauto.
Qed.

Lemma pre_model_hook_run (state : AgentState) (configurable : gmap string PyVal)
    (actor_id thread_id : PyVal) (w : W) :
  configurable !! "actor_id" = Some actor_id ->
  configurable !! "thread_id" = Some thread_id ->
  pre_model_hook uuid4 store_put store_search state configurable w =
    match latest_human (messages state) with
    | Some msg =>
        let '(id, w1) := uuid4 w in
        match store_put (actor_id, thread_id) id msg w1 with
        | (Returns _, w2) =>
            let '(r, w3, t) := retrieve_preferences store_search actor_id msg w2 in
            (match r with Returns _ => Returns (messages state) | Raises e => Raises e end,
             w3, EvUuid id :: EvPut (actor_id, thread_id) id msg :: t)
        | (Raises e, w2) =>
            (Raises e, w2, [EvUuid id; EvPut (actor_id, thread_id) id msg])
        end
    | None => (Returns (messages state), w, [])
    end.
Proof.
  intros Ha Ht. unfold pre_model_hook, bind, lift, getitem, ret.
  rewrite Ha, Ht, save_last_human_latest.
  destruct (latest_human (messages state)) as [msg|] eqn:Hlatest; [|reflexivity].
  cbn [save_last_human]. rewrite (latest_human_is_human _ _ Hlatest).
  unfold bind, sample, extern. destruct (uuid4 w) as [id w1].
  destruct (store_put (actor_id, thread_id) id msg w1) as [[[]|e] w2]; [|reflexivity].
  destruct (retrieve_preferences store_search actor_id msg w2) as [[[[]|e] w3] t];
    cbn; now rewrite ?app_nil_r.
Qed.
End HookFacts.

(** C5: on a state with at least one user message, with the store
    accepting the write, the pre-hook draws one fresh id, writes exactly one
    record (the most recent user message under that id) to the
    (actor_id, thread_id) namespace, then makes one lookup in the
    ("preferences", actor_id) namespace with the message's content as query
    and limit 5; everything after that is console output.  The hook returns
    whatever the lookup does: an exception raised by the lookup is caught
    and reported on the console. *)
Theorem pre_hook_saves_latest_user_message {W : Type}
    (uuid4 : W -> string * W)
    (store_put : AwsMemory.Namespace -> string -> AwsMemory.BaseMessage -> W -> outcome unit * W)
    (store_search : AwsMemory.Namespace -> string -> nat -> W
                    -> outcome (list AwsMemory.Item) * W)
    (state : AwsMemory.AgentState) (configurable : gmap string AwsMemory.PyVal)
    (actor_id thread_id : AwsMemory.PyVal) (msg : AwsMemory.BaseMessage)
    (id : string) (w w1 w2 : W) :
  configurable !! "actor_id" = Some actor_id ->
  configurable !! "thread_id" = Some thread_id ->
  AwsMemory.latest_human (AwsMemory.messages state) = Some msg ->
  uuid4 w = (id, w1) ->
  store_put (actor_id, thread_id) id msg w1 = (Returns tt, w2) ->
  let run := AwsMemory.pre_model_hook uuid4 store_put store_search state configurable w in
  result_of run = Returns (AwsMemory.messages state) /\
  (exists prints,
     trace_of run
       = AwsMemory.EvUuid id
         :: AwsMemory.EvPut (actor_id, thread_id) id msg
         :: AwsMemory.EvSearch (AwsMemory.PStr "preferences", actor_id)
              (AwsMemory.msg_content msg) 5
         :: prints /\
     Forall AwsMemory.is_print prints) /\
  (forall e w3,
     store_search (AwsMemory.PStr "preferences", actor_id) (AwsMemory.msg_content msg) 5 w2
       = (Raises e, w3) ->
     run = (Returns (AwsMemory.messages state), w3,
            [AwsMemory.EvUuid id;
             AwsMemory.EvPut (actor_id, thread_id) id msg;
             AwsMemory.EvSearch (AwsMemory.PStr "preferences", actor_id)
               (AwsMemory.msg_content msg) 5;
             AwsMemory.EvPrint ("Memory retrieval error: " +:+ exc_str e)])).
Proof.
  intros Ha Ht Hlatest Hid Hput run. subst run.
  rewrite (pre_model_hook_run _ _ _ _ _ _ _ _ Ha Ht), Hlatest, Hid, Hput.
  destruct (retrieve_preferences_run store_search actor_id msg w2)
    as (w3 & prints & Hrun & Hprints & Hw3 & Hraise).
  rewrite Hrun. cbn [result_of trace_of fst snd].
  split; [reflexivity|]. split; [now exists prints|].
  intros e w3' Hsearch. rewrite Hsearch in Hw3, Hraise. cbn in Hw3. subst w3.
  now rewrite (Hraise e eq_refl).
Qed.

Lemma pre_hook_saves_latest_user_message_witness :
  AwsMemory.pre_model_hook AwsMemory.counter_uuid4 AwsMemory.accepting_put
    (AwsMemory.fixed_lookup (Raises (mkExc "TimeoutError" "store is down")))
    (AwsMemory.mkState [AwsMemory.HumanMessage "hi"])
    (<["thread_id" := AwsMemory.PStr "t1"]> (<["actor_id" := AwsMemory.PStr "u1"]> ∅)) 0
  = (Returns [AwsMemory.HumanMessage "hi"], 1,
     [AwsMemory.EvUuid "id-0";
      AwsMemory.EvPut (AwsMemory.PStr "u1", AwsMemory.PStr "t1") "id-0"
        (AwsMemory.HumanMessage "hi");
      AwsMemory.EvSearch (AwsMemory.PStr "preferences", AwsMemory.PStr "u1") "hi" 5;
      AwsMemory.EvPrint "Memory retrieval error: store is down"]).
Proof.
  refine (proj2 (proj2 (pre_hook_saves_latest_user_message
            AwsMemory.counter_uuid4 AwsMemory.accepting_put
            (AwsMemory.fixed_lookup (Raises (mkExc "TimeoutError" "store is down")))
            (AwsMemory.mkState [AwsMemory.HumanMessage "hi"])
            (<["thread_id" := AwsMemory.PStr "t1"]> (<["actor_id" := AwsMemory.PStr "u1"]> ∅))
            (AwsMemory.PStr "u1") (AwsMemory.PStr "t1") (AwsMemory.HumanMessage "hi")
            "id-0" 0 1 1 _ _ _ _ _))
            (mkExc "TimeoutError" "store is down") 1 _); reflexivity.
Defined.

(** C10: the pre-hook never changes the conversation: whenever it returns,
    it returns the messages of the input state as they were.  With the
    actor and thread ids configured, it returns on every state if the store
    accepts writes, and on a state without any user message it returns at
    once, with no id drawn, no store write and no preference lookup. *)
Theorem pre_hook_leaves_messages_unchanged {W : Type}
    (uuid4 : W -> string * W)
    (store_put : AwsMemory.Namespace -> string -> AwsMemory.BaseMessage -> W -> outcome unit * W)
    (store_search : AwsMemory.Namespace -> string -> nat -> W
                    -> outcome (list AwsMemory.Item) * W)
    (state : AwsMemory.AgentState) (configurable : gmap string AwsMemory.PyVal) (w : W) :
  let run := AwsMemory.pre_model_hook uuid4 store_put store_search state configurable w in
  (forall returned, result_of run = Returns returned -> returned = AwsMemory.messages state) /\
  (forall actor_id thread_id,
     configurable !! "actor_id" = Some actor_id ->
     configurable !! "thread_id" = Some thread_id ->
     (List.filter AwsMemory.is_human (AwsMemory.messages state) = [] ->
      run = (Returns (AwsMemory.messages state), w, [])) /\
     ((forall ns id m w0, exists w1, store_put ns id m w0 = (Returns tt, w1)) ->
      result_of run = Returns (AwsMemory.messages state))).
Proof.
  cbv zeta. split.
  - intros returned. unfold AwsMemory.pre_model_hook, bind, lift, ret.
    destruct (AwsMemory.getitem configurable "actor_id") as [actor_id|e]; [|discriminate].
    destruct (AwsMemory.getitem configurable "thread_id") as [thread_id|e]; [|discriminate].
    destruct (AwsMemory.save_last_human _ _ _ _ _ _ w) as [[[[]|e] w1] t]; cbn.
    + now intros [= <-].
    + discriminate.
  - intros actor_id thread_id Ha Ht.
    rewrite (pre_model_hook_run _ _ _ _ _ _ _ _ Ha Ht). unfold AwsMemory.latest_human.
    split.
    + now intros ->.
    + intros Hput. destruct (last _) as [msg|]; [|reflexivity].
      destruct (uuid4 w) as [id w1].
      destruct (Hput (actor_id, thread_id) id msg w1) as [w2 ->].
      destruct (retrieve_preferences_run store_search actor_id msg w2)
        as (w3 & prints & -> & _). reflexivity.
Qed.

Lemma pre_hook_leaves_messages_unchanged_witness :
  AwsMemory.pre_model_hook AwsMemory.counter_uuid4 AwsMemory.accepting_put
    (AwsMemory.fixed_lookup (Returns []))
    (AwsMemory.mkState [AwsMemory.SystemMessage "be brief"; AwsMemory.AIMessage "hello" []])
    (<["thread_id" := AwsMemory.PStr "t1"]> (<["actor_id" := AwsMemory.PStr "u1"]> ∅)) 0
  = (Returns [AwsMemory.SystemMessage "be brief"; AwsMemory.AIMessage "hello" []], 0, []).
Proof.
  refine (proj1 (proj2 (pre_hook_leaves_messages_unchanged
            AwsMemory.counter_uuid4 AwsMemory.accepting_put
            (AwsMemory.fixed_lookup (Returns []))
            (AwsMemory.mkState [AwsMemory.SystemMessage "be brief"; AwsMemory.AIMessage "hello" []])
            (<["thread_id" := AwsMemory.PStr "t1"]> (<["actor_id" := AwsMemory.PStr "u1"]> ∅)) 0)
            (AwsMemory.PStr "u1") (AwsMemory.PStr "t1") _ _) _); reflexivity.
Defined.

(** ** lanchain_agent_aws_memory.py: the entrypoint *)

Section EntrypointFacts.
Import PyStr AwsMemory.
Context {W : Type}.
Variable agent_stream :
  list BaseMessage -> gmap string PyVal -> W -> (list Chunk * option PyExc) * W.

Lemma error_record_fields (msg : string) :
  error_record msg !! "error" = Some (PStr msg) /\
  error_record msg !! "result" = Some PNone.
Proof. unfold error_record. split; now simplify_map_eq. Qed.

Lemma error_record_is_error (msg : string) : is_error_record (error_record msg).
Proof. exists msg. apply error_record_fields. Qed.


Lemma final_answer_of_truthy (m : BaseMessage) (answer : string) :
  final_answer_of m = Some answer -> truthy answer = true.
Proof.
  destruct m as [c|c tcs|c|c]; cbn; try discriminate.
  destruct (truthy c) eqn:Hc; cbn; [|discriminate].
  destruct (list_truthy tcs); cbn; [discriminate|]. now intros [= <-].
Qed.

Lemma final_answers_truthy (chunks : list Chunk) (answer : string) :
  answer ∈ final_answers chunks -> truthy answer = true.
Proof.
  unfold final_answers. rewrite list_elem_of_omap. intros (chunk & _ & H).
  destruct (chunk_messages chunk) as [msgs|]; [|discriminate]. cbn in H.
  destruct (last msgs) as [m|]; [|discriminate]. cbn in H.
  now apply final_answer_of_truthy in H.
Qed.

Lemma final_answers_cons (chunk : Chunk) (rest : list Chunk) :
  final_answers (chunk :: rest) =
    match chunk_messages chunk ≫= (fun msgs => last msgs ≫= final_answer_of) with
    | Some answer => answer :: final_answers rest
    | None => final_answers rest
    end.
Proof. reflexivity. Qed.

(** On chunks that all carry a message, the loop counts the chunks and
    keeps the latest final answer offered. *)
Lemma stream_loop_spec (chunks : list Chunk) (step : nat) (final_answer : option string) :
  chunks_nonempty chunks ->
  stream_loop chunks step final_answer =
    Returns (step + length chunks,
             from_option Some final_answer (last (final_answers chunks))).
Proof.
  intros Hne. revert step final_answer.
  induction Hne as [|chunk rest Hchunk _ IH]; intros step final_answer.
  - cbn. now rewrite Nat.add_0_r.
  - rewrite final_answers_cons. cbn [stream_loop length].
    replace (step + S (length rest)) with (step + 1 + length rest) by lia.
    destruct chunk as [[msgs|]]; cbn in *; [|apply IH].
    unfold py_last. destruct (last msgs) as [m|] eqn:Hm; cbn.
    + destruct (final_answer_of m) as [c|]; [|apply IH].
      rewrite IH, last_cons. now destruct (last (final_answers rest)).
    + apply last_None in Hm. now subst msgs.
Qed.

Lemma stream_outcome_spec (chunks : list Chunk) :
  chunks_nonempty chunks ->
  stream_outcome chunks None = Returns (length chunks, last (final_answers chunks)).
Proof.
  intros Hne. unfold stream_outcome. rewrite (stream_loop_spec _ _ _ Hne). cbn.
  now destruct (last (final_answers chunks)).
Qed.

Lemma handle_payload_run (d : gmap string PyVal) (w : W) :
  handle_payload agent_stream d w =
    match py_strip (default (PStr "") (d !! "prompt")) with
    | Raises e => (Raises e, w, [])
    | Returns user_message =>
        if truthy user_message then
          let '(chunks, stop, w1) :=
            agent_stream [HumanMessage user_message] (session_config d) w in
          after_stream w1 user_message d (stream_outcome chunks stop)
        else
          (Returns (error_record
             "No prompt found in input. Please provide a 'prompt' key with your question."),
           w, [])
    end.
Proof.
  unfold handle_payload, bind, lift.
  destruct (py_strip _) as [user_message|e]; [|reflexivity].
  destruct (truthy user_message); [|reflexivity]. cbn [negb].
  unfold try_except, bind, emit, ret, run_stream, after_stream.
  destruct (agent_stream _ _ w) as [[chunks stop] w1].
  destruct (stream_outcome chunks stop) as [[step [answer|]]|e]; try reflexivity.
  destruct (truthy answer); reflexivity.
Qed.

Lemma after_stream_returns (w1 : W) (user_message : string) (d : gmap string PyVal)
    (o : outcome (nat * option string)) :
  exists record t,
    after_stream w1 user_message d o = (Returns record, w1, t) /\
    (is_error_record record \/
     exists answer step, o = Returns (step, Some answer) /\ truthy answer = true /\
                         record = success_record answer step).
Proof.
  unfold after_stream. destruct o as [[step [answer|]]|e].
  - destruct (truthy answer) eqn:Ha; do 2 eexists; (split; [reflexivity|]).
    + right. now exists answer, step.
    + left. apply error_record_is_error.
  - do 2 eexists. split; [reflexivity|]. left. apply error_record_is_error.
  - do 2 eexists. split; [reflexivity|]. left. apply error_record_is_error.
Qed.

Lemma agent_invocation_dict (d : gmap string PyVal) (w : W) :
  py_truthy (PDict d) = true ->
  agent_invocation agent_stream (PDict d) w =
    match handle_payload agent_stream d w with
    | (Returns record, w1, t) => (Returns record, w1, t)
    | (Raises e, w1, t) =>
        (Returns (<["success" := PBool false]>
                    (error_record ("Unexpected error in agent_invocation: " +:+ exc_str e))),
         w1, t ++ [EvPrint ("❌ " +:+ "Unexpected error in agent_invocation: " +:+ exc_str e)])
    end.
Proof.
  intros Hd. unfold agent_invocation, try_except. rewrite Hd. cbn [negb orb isinstance_dict dict_items].
  destruct (handle_payload agent_stream d w) as [[[record|e] w1] t]; reflexivity.
Qed.

Lemma agent_invocation_invalid (payload : PyVal) (w : W) :
  py_truthy payload = false \/ isinstance_dict payload = false ->
  agent_invocation agent_stream payload w =
    (Returns (error_record "Invalid payload format. Expected JSON dict with 'prompt' key"),
     w, []).
Proof.
  intros H. unfold agent_invocation, try_except.
  replace (negb (py_truthy payload) || negb (isinstance_dict payload)) with true;
    [reflexivity|].
  destruct H as [-> | ->]; [reflexivity | now rewrite orb_true_r].
Qed.

Lemma dict_with_key_truthy (d : gmap string PyVal) (k : string) (v : PyVal) :
  d !! k = Some v -> py_truthy (PDict d) = true.
Proof.
  intros H. cbn. destruct (size d) eqn:Hsize; [|reflexivity].
  apply map_size_empty_inv in Hsize. subst d. now rewrite lookup_empty in H.
Qed.
End EntrypointFacts.

(** C6: the entrypoint returns a record with a text under "error" and
    [None] under "result" when the payload is missing, empty or not an
    object, when the prompt is missing or empty, and when a run that
    completes offers no final answer (the text is then "Agent failed to
    generate a response").  When a run that completes offers a final answer,
    the answer is not empty and the record is
    {result: answer, steps: number of chunks > 0, success: true}. *)
Theorem agent_invocation_validates {W : Type}
    (agent_stream : list AwsMemory.BaseMessage -> gmap string AwsMemory.PyVal -> W
                    -> (list AwsMemory.Chunk * option PyExc) * W) :
  (forall msg, AwsMemory.is_error_record (AwsMemory.error_record msg)) /\
  (forall payload w,
     AwsMemory.py_truthy payload = false \/ AwsMemory.isinstance_dict payload = false ->
     result_of (AwsMemory.agent_invocation agent_stream payload w)
       = Returns (AwsMemory.error_record
                    "Invalid payload format. Expected JSON dict with 'prompt' key")) /\
  (forall d w,
     AwsMemory.py_truthy (AwsMemory.PDict d) = true ->
     d !! "prompt" = None \/
       (exists s, d !! "prompt" = Some (AwsMemory.PStr s) /\ PyStr.strip s = "") ->
     result_of (AwsMemory.agent_invocation agent_stream (AwsMemory.PDict d) w)
       = Returns (AwsMemory.error_record
           "No prompt found in input. Please provide a 'prompt' key with your question.")) /\
  (forall d s w chunks w1,
     d !! "prompt" = Some (AwsMemory.PStr s) ->
     PyStr.strip s <> "" ->
     agent_stream [AwsMemory.HumanMessage (PyStr.strip s)] (AwsMemory.session_config d) w
       = (chunks, None, w1) ->
     AwsMemory.chunks_nonempty chunks ->
     (AwsMemory.final_answers chunks = [] ->
      result_of (AwsMemory.agent_invocation agent_stream (AwsMemory.PDict d) w)
        = Returns (AwsMemory.error_record "Agent failed to generate a response")) /\
     (forall answer,
        last (AwsMemory.final_answers chunks) = Some answer ->
        answer <> "" /\ 0 < length chunks /\
        result_of (AwsMemory.agent_invocation agent_stream (AwsMemory.PDict d) w)
          = Returns (<["result" := AwsMemory.PStr answer]>
                       (<["steps" := AwsMemory.PInt (Z.of_nat (length chunks))]>
                          (<["success" := AwsMemory.PBool true]> ∅))))).
Proof.
  split; [apply error_record_is_error|]. split; [|split].
  - intros payload w H. now rewrite agent_invocation_invalid.
  - intros d w Hd Hprompt.
    rewrite (agent_invocation_dict _ _ _ Hd), handle_payload_run.
    destruct Hprompt as [-> | (s & -> & Hs)]; cbn; [reflexivity|]. now rewrite Hs.
  - intros d s w chunks w1 Hprompt Hs Hstream Hne.
    rewrite (agent_invocation_dict _ _ _ (dict_with_key_truthy _ _ _ Hprompt)).
    rewrite handle_payload_run, Hprompt. cbn [default from_option id AwsMemory.py_strip].
    destruct (PyStr.strip s) as [|c rest] eqn:Hstrip; [contradiction|].
    cbn [PyStr.truthy]. rewrite Hstream, (stream_outcome_spec _ Hne). split.
    + now intros ->.
    + intros answer Hlast. rewrite Hlast.
      assert (Ht : PyStr.truthy answer = true).
      { apply (final_answers_truthy chunks). now apply last_Some_elem_of. }
      repeat split.
      * intros ->. discriminate.
      * destruct chunks; [discriminate | cbn; lia].
      * cbn. now rewrite Ht.
Qed.

Lemma agent_invocation_validates_witness :
  result_of (AwsMemory.agent_invocation
               (AwsMemory.replay_stream
                  [AwsMemory.mkChunk (Some [AwsMemory.HumanMessage "2+2?"]);
                   AwsMemory.mkChunk (Some [AwsMemory.HumanMessage "2+2?";
                                            AwsMemory.AIMessage "4" []])] None)
               (AwsMemory.PDict (<["prompt" := AwsMemory.PStr "2+2?"]> ∅)) 0)
    = Returns (<["result" := AwsMemory.PStr "4"]>
                 (<["steps" := AwsMemory.PInt 2]>
                    (<["success" := AwsMemory.PBool true]> ∅))) /\
  result_of (AwsMemory.agent_invocation
               (AwsMemory.replay_stream
                  [AwsMemory.mkChunk (Some [AwsMemory.HumanMessage "x"]);
                   AwsMemory.mkChunk (Some [AwsMemory.HumanMessage "x";
                                            AwsMemory.AIMessage "" []])] None)
               (AwsMemory.PDict (<["prompt" := AwsMemory.PStr "x"]> ∅)) 0)
    = Returns (AwsMemory.error_record "Agent failed to generate a response") /\
  result_of (AwsMemory.agent_invocation (AwsMemory.replay_stream [] None)
               (AwsMemory.PDict ∅) 0)
    = Returns (AwsMemory.error_record
                 "Invalid payload format. Expected JSON dict with 'prompt' key") /\
  result_of (AwsMemory.agent_invocation
               (AwsMemory.replay_stream
                  [AwsMemory.mkChunk (Some [AwsMemory.AIMessage "4" []])] None)
               (AwsMemory.PDict (<["prompt" := AwsMemory.PStr "  　"]> ∅)) 0)
    = Returns (AwsMemory.error_record
        "No prompt found in input. Please provide a 'prompt' key with your question.").
Proof.
  split; [|split; [|split]].
  - destruct (agent_invocation_validates
                (AwsMemory.replay_stream
                   [AwsMemory.mkChunk (Some [AwsMemory.HumanMessage "2+2?"]);
                    AwsMemory.mkChunk (Some [AwsMemory.HumanMessage "2+2?";
                                             AwsMemory.AIMessage "4" []])] None))
      as (_ & _ & _ & Hrun).
    refine (proj2 (proj2 (proj2 (Hrun (<["prompt" := AwsMemory.PStr "2+2?"]> ∅)
                                   "2+2?" 0 _ 0 eq_refl _ eq_refl _) "4" eq_refl))).
    + discriminate.
    + repeat constructor; discriminate.
  - destruct (agent_invocation_validates
                (AwsMemory.replay_stream
                   [AwsMemory.mkChunk (Some [AwsMemory.HumanMessage "x"]);
                    AwsMemory.mkChunk (Some [AwsMemory.HumanMessage "x";
                                             AwsMemory.AIMessage "" []])] None))
      as (_ & _ & _ & Hrun).
    refine (proj1 (Hrun (<["prompt" := AwsMemory.PStr "x"]> ∅)
                     "x" 0 _ 0 eq_refl _ eq_refl _) eq_refl).
    + discriminate.
    + repeat constructor; discriminate.
  - destruct (agent_invocation_validates (AwsMemory.replay_stream [] None))
      as (_ & Hinvalid & _).
    apply (Hinvalid (AwsMemory.PDict ∅) 0). left. reflexivity.
  - destruct (agent_invocation_validates
                (AwsMemory.replay_stream
                   [AwsMemory.mkChunk (Some [AwsMemory.AIMessage "4" []])] None))
      as (_ & _ & Hblank & _).
    apply (Hblank (<["prompt" := AwsMemory.PStr "  　"]> ∅) 0); [reflexivity|].
    right. exists "  　". split; reflexivity.
Defined.



(** * Further properties *)

(** ** langgraph_agent.py: whole runs *)

Section RunFacts.
Import PyStr LangGraph LangGraphRuns.
Context {W : Type}.
Variable llm_invoke : list BaseMessage -> W -> outcome string * W.
Variable search_tool_invoke : string -> W -> outcome (list SearchResult) * W.




(** The run of the graph on a history that has a last message, written out. *)
Lemma app_run (inputs : AgentState) (last_msg : Message) (w : W) :
  last (messages inputs) = Some last_msg ->
  app llm_invoke search_tool_invoke inputs w =
    let msgs := messages inputs in
    let query := content last_msg in
    let asked := [EvNode "decide"; EvLLM (decide_prompt last_msg)] in
    match llm_invoke (decide_prompt last_msg) w with
    | (Raises e, w1) => (Raises e, w1, asked)
    | (Returns response, w1) =>
        if contains "yes" (lower response) then
          let searched := asked ++ [EvNode "search"; EvSearch query] in
          match search_tool_invoke query w1 with
          | (Raises e, w2) => (Raises e, w2, searched)
          | (Returns results, w2) =>
              let found := search_message_of query results in
              let prompt := respond_prompt_of (msgs ++ [found]) found in
              match llm_invoke prompt w2 with
              | (Raises e, w3) =>
                  (Raises e, w3, searched ++ [EvNode "respond"; EvLLM prompt])
              | (Returns answer, w3) =>
                  (Returns {| messages := (msgs ++ [found]) ++ [answer_message answer];
                              needs_search := true |},
                   w3, searched ++ [EvNode "respond"; EvLLM prompt])
              end
          end
        else
          let prompt := respond_prompt_of msgs last_msg in
          match llm_invoke prompt w1 with
          | (Raises e, w3) => (Raises e, w3, asked ++ [EvNode "respond"; EvLLM prompt])
          | (Returns answer, w3) =>
              (Returns {| messages := msgs ++ [answer_message answer];
                          needs_search := false |},
               w3, asked ++ [EvNode "respond"; EvLLM prompt])
          end
    end.
Proof.
  intros Hlast. cbv zeta. unfold app, invoke. rewrite workflow_entry.
  unfold recursion_limit.
  rewrite (run_from_node _ _ "decide" _ _ _ eq_refl (workflow_decide _ _)).
  rewrite (should_search_node_run _ _ _ _ Hlast).
  destruct (llm_invoke (decide_prompt last_msg) w) as [[response|e] w1]; [|reflexivity].
  rewrite next_after_decide, apply_update_flag. cbn [needs_search].
  destruct (contains "yes" (lower response)).
  - rewrite (run_from_node _ _ "search" _ _ _ eq_refl (workflow_search _ _)).
    rewrite (search_node_run _ (mkState (messages inputs) true) last_msg _ Hlast).
    destruct (search_tool_invoke (content last_msg) w1) as [[results|e] w2]; [|reflexivity].
    rewrite next_after_search, apply_update_messages. cbn [needs_search].
    rewrite (run_from_node _ _ "respond" _ _ _ eq_refl (workflow_respond _ _)).
    rewrite respond_node_run.
    erewrite respond_prompt_some by (cbn [messages]; apply last_snoc).
    fold (search_message_of (content last_msg) results).
    fold (respond_prompt_of
            (messages inputs ++ [search_message_of (content last_msg) results])
            (search_message_of (content last_msg) results)).
    destruct (llm_invoke _ w2) as [[answer|e] w3]; [|reflexivity].
    rewrite next_after_respond, apply_update_messages, run_from_end. reflexivity.
  - rewrite (run_from_node _ _ "respond" _ _ _ eq_refl (workflow_respond _ _)).
    rewrite respond_node_run.
    rewrite (respond_prompt_some (mkState (messages inputs) false) last_msg Hlast).
    fold (respond_prompt_of (messages inputs) last_msg).
    destruct (llm_invoke _ w1) as [[answer|e] w3]; [|reflexivity].
    rewrite next_after_respond, apply_update_messages, run_from_end. reflexivity.
Qed.

(** The run of the graph on an empty history. *)
Lemma app_run_empty (flag : bool) (w : W) :
  app llm_invoke search_tool_invoke (mkState [] flag) w
    = (Raises (mkExc "IndexError" "list index out of range"), w, [EvNode "decide"]).
Proof. reflexivity. Qed.
End RunFacts.

(** X1: the [needs_search] value the caller passes in is never read: two
    invocations on the same messages and the same world run the same way
    whatever that flag is, because the decision node overwrites it before
    the router looks at it. *)
Theorem graph_ignores_initial_flag {W : Type}
    (llm_invoke : list LangGraph.BaseMessage -> W -> outcome string * W)
    (search_tool_invoke : string -> W -> outcome (list LangGraph.SearchResult) * W)
    (msgs : list LangGraph.Message) (flag1 flag2 : bool) (w : W) :
  LangGraph.app llm_invoke search_tool_invoke (LangGraph.mkState msgs flag1) w
    = LangGraph.app llm_invoke search_tool_invoke (LangGraph.mkState msgs flag2) w.
Proof.
  destruct (last msgs) as [last_msg|] eqn:Hlast.
  - rewrite (app_run _ _ (LangGraph.mkState msgs flag1) last_msg w Hlast).
    rewrite (app_run _ _ (LangGraph.mkState msgs flag2) last_msg w Hlast).
    reflexivity.
  - apply last_None in Hlast. subst msgs. now rewrite !app_run_empty.
Qed.

(** X2: invoked on a state without messages, the graph raises IndexError in
    the decision node: it enters no other node, calls neither adapter and
    leaves the world of the collaborators as it was. *)
Theorem graph_empty_history_raises {W : Type}
    (llm_invoke : list LangGraph.BaseMessage -> W -> outcome string * W)
    (search_tool_invoke : string -> W -> outcome (list LangGraph.SearchResult) * W)
    (inputs : LangGraph.AgentState) (w : W) :
  LangGraph.messages inputs = [] ->
  LangGraph.app llm_invoke search_tool_invoke inputs w
    = (Raises (mkExc "IndexError" "list index out of range"), w,
       [LangGraph.EvNode "decide"]).
Proof.
  intros Hempty. destruct inputs as [msgs flag]. simpl in Hempty. subst msgs.
  apply app_run_empty.
Qed.

Lemma graph_empty_history_raises_witness :
  LangGraph.app LangGraph.scripted_llm (LangGraph.fixed_search [])
    (LangGraph.mkState [] true) ["yes"; "sunny"]
  = (Raises (mkExc "IndexError" "list index out of range"), ["yes"; "sunny"],
     [LangGraph.EvNode "decide"]).
Proof.
  apply (graph_empty_history_raises LangGraph.scripted_llm (LangGraph.fixed_search [])
           (LangGraph.mkState [] true) ["yes"; "sunny"]).
  reflexivity.
Defined.

(** X3: when the history is not empty, the model adapter answers every
    prompt and the search adapter replies to every query with a list of
    results, every invocation completes: it returns a final state, well
    within the executor's recursion limit. *)
Theorem graph_completes_when_adapters_answer {W : Type}
    (llm_invoke : list LangGraph.BaseMessage -> W -> outcome string * W)
    (search_tool_invoke : string -> W -> outcome (list LangGraph.SearchResult) * W)
    (inputs : LangGraph.AgentState) (w : W) :
  LangGraph.messages inputs <> [] ->
  (forall prompt w0, exists answer w1, llm_invoke prompt w0 = (Returns answer, w1)) ->
  (forall query w0, exists results w1, search_tool_invoke query w0 = (Returns results, w1)) ->
  exists final,
    result_of (LangGraph.app llm_invoke search_tool_invoke inputs w) = Returns final.
Proof.
  intros Hne Hllm Hsearch.
  destruct (last (LangGraph.messages inputs)) as [last_msg|] eqn:Hlast;
    [|now apply last_None in Hlast].
  rewrite (app_run _ _ _ _ _ Hlast). cbv zeta.
  destruct (Hllm (LangGraph.decide_prompt last_msg) w) as (response & w1 & ->).
  destruct (PyStr.contains "yes" (PyStr.lower response)).
  - destruct (Hsearch (LangGraph.content last_msg) w1) as (results & w2 & ->).
    destruct (Hllm (LangGraphRuns.respond_prompt_of
                      (LangGraph.messages inputs
                       ++ [LangGraphRuns.search_message_of (LangGraph.content last_msg) results])
                      (LangGraphRuns.search_message_of (LangGraph.content last_msg) results))
                w2) as (answer & w3 & ->).
    now eexists.
  - destruct (Hllm (LangGraphRuns.respond_prompt_of (LangGraph.messages inputs) last_msg) w1)
      as (answer & w3 & ->).
    now eexists.
Qed.

Lemma graph_completes_when_adapters_answer_witness :
  exists final,
    result_of (LangGraph.app (fun _ (w : list string) => (Returns "no", w))
                 (LangGraph.fixed_search [])
                 (LangGraph.mkState [LangGraph.mkMessage "user" "hello"] false) [])
      = Returns final.
Proof.
  apply (graph_completes_when_adapters_answer (fun _ (w : list string) => (Returns "no", w))
           (LangGraph.fixed_search [])
           (LangGraph.mkState [LangGraph.mkMessage "user" "hello"] false) []).
  - discriminate.
  - intros prompt w0. now exists "no", w0.
  - intros query w0. now exists [], w0.
Defined.





(** X6: on a history that is not empty, with a search adapter whose replies
    are lists of results, the nodes and the executor add no failure of their
    own: when an invocation raises, the exception is the one raised by the
    adapter call it made last, the model adapter or the search adapter. *)
Theorem graph_fails_only_with_an_adapter {W : Type}
    (llm_invoke : list LangGraph.BaseMessage -> W -> outcome string * W)
    (search_tool_invoke : string -> W -> outcome (list LangGraph.SearchResult) * W)
    (inputs : LangGraph.AgentState) (w : W) (e : PyExc) :
  LangGraph.messages inputs <> [] ->
  result_of (LangGraph.app llm_invoke search_tool_invoke inputs w) = Raises e ->
  let t := trace_of (LangGraph.app llm_invoke search_tool_invoke inputs w) in
  (exists prompt w0 w1,
     last t = Some (LangGraph.EvLLM prompt) /\ llm_invoke prompt w0 = (Raises e, w1)) \/
  (exists query w0 w1,
     last t = Some (LangGraph.EvSearch query) /\
     search_tool_invoke query w0 = (Raises e, w1)).
Proof.
  intros Hne.
  destruct (last (LangGraph.messages inputs)) as [last_msg|] eqn:Hlast;
    [|now apply last_None in Hlast].
  rewrite (app_run _ _ _ _ _ Hlast). cbv zeta.
  destruct (llm_invoke _ w) as [[response|e1] w1] eqn:Hdecide.
  - destruct (PyStr.contains "yes" (PyStr.lower response)).
    + destruct (search_tool_invoke _ w1) as [[results|e2] w2] eqn:Hsearch.
      * destruct (llm_invoke _ w2) as [[answer|e3] w3] eqn:Hrespond; [discriminate|].
        intros [= <-]. left. eexists _, w2, w3. split; [reflexivity | exact Hrespond].
      * intros [= <-]. right. eexists _, w1, w2. split; [reflexivity | exact Hsearch].
    + destruct (llm_invoke _ w1) as [[answer|e3] w3] eqn:Hrespond; [discriminate|].
      intros [= <-]. left. eexists _, w1, w3. split; [reflexivity | exact Hrespond].
  - intros [= <-]. left. eexists _, w, w1. split; [reflexivity | exact Hdecide].
Qed.

Lemma graph_fails_only_with_an_adapter_witness :
  (exists prompt w0 w1,
     last (trace_of (LangGraph.app LangGraph.scripted_llm (LangGraph.fixed_search [])
                       (LangGraph.mkState [LangGraph.mkMessage "user" "hello"] false)
                       ["no"]))
       = Some (LangGraph.EvLLM prompt) /\
     LangGraph.scripted_llm prompt w0
       = (Raises (mkExc "RuntimeError" "no scripted answer"), w1)) \/
  (exists query w0 w1,
     last (trace_of (LangGraph.app LangGraph.scripted_llm (LangGraph.fixed_search [])
                       (LangGraph.mkState [LangGraph.mkMessage "user" "hello"] false)
                       ["no"]))
       = Some (LangGraph.EvSearch query) /\
     LangGraph.fixed_search [] query w0
       = (Raises (mkExc "RuntimeError" "no scripted answer"), w1)).
Proof.
  apply (graph_fails_only_with_an_adapter LangGraph.scripted_llm (LangGraph.fixed_search [])
           (LangGraph.mkState [LangGraph.mkMessage "user" "hello"] false) ["no"]
           (mkExc "RuntimeError" "no scripted answer")).
  - discriminate.
  - reflexivity.
Defined.

(** X7: when the history has no user-role message, or its latest user-role
    message has empty content, the respond node closes its prompt with the
    content of the last message of the history, whatever the role of that
    message. *)
Theorem respond_falls_back_to_last_message
    (state : LangGraph.AgentState) (last_msg : LangGraph.Message) :
  last (LangGraph.messages state) = Some last_msg ->
  LangGraph.last_user_content (LangGraph.messages state) = None \/
    LangGraph.last_user_content (LangGraph.messages state) = Some "" ->
  exists context,
    LangGraph.respond_prompt state
      = Returns (LangGraph.SystemMessage LangGraph.respond_instruction
                   :: context ++ [LangGraph.HumanMessage (LangGraph.content last_msg)]) /\
    (context = [] \/ exists text, context = [LangGraph.AIMessage text]).
Proof.
  intros Hlast Huser. rewrite (respond_prompt_some _ _ Hlast).
  exists (LangGraph.context_messages (LangGraph.messages state)). split.
  - unfold LangGraph.closing_query. now destruct Huser as [-> | ->].
  - unfold LangGraph.context_messages.
    destruct (LangGraph.last_search_context _) as [sr|]; [right; now exists sr | now left].
Qed.

Lemma respond_falls_back_to_last_message_witness :
  exists context,
    LangGraph.respond_prompt
      (LangGraph.mkState [LangGraph.mkMessage "user" "";
                          LangGraph.mkMessage "assistant" "How can I help?"] false)
      = Returns (LangGraph.SystemMessage LangGraph.respond_instruction
                   :: context ++ [LangGraph.HumanMessage "How can I help?"]) /\
    (context = [] \/ exists text, context = [LangGraph.AIMessage text]).
Proof.
  apply (respond_falls_back_to_last_message
           (LangGraph.mkState [LangGraph.mkMessage "user" "";
                               LangGraph.mkMessage "assistant" "How can I help?"] false)
           (LangGraph.mkMessage "assistant" "How can I help?")).
  - reflexivity.
  - right. reflexivity.
Defined.

(** ** lanchain_agent_aws_memory.py: the hooks *)

Section MoreHookFacts.
Import PyStr AwsMemory MemoryHooks.
Context {W : Type}.
Variable uuid4 : W -> string * W.
Variable store_put : Namespace -> string -> BaseMessage -> W -> outcome unit * W.

Lemma save_last_ai_latest (namespace : Namespace) (msgs : list BaseMessage) :
  save_last_ai uuid4 store_put namespace (reverse msgs) =
    match latest_ai msgs with
    | Some msg => save_last_ai uuid4 store_put namespace [msg]
    | None => ret tt
    end.
Proof.
  unfold latest_ai. induction msgs as [|m msgs IH] using rev_ind; [reflexivity|].
  rewrite reverse_snoc, List.filter_app. cbn [List.filter save_last_ai].
  destruct (is_ai m) eqn:Hm.
  - rewrite last_snoc. cbn [save_last_ai]. now rewrite Hm.
  - now rewrite app_nil_r.
Qed.

Lemma latest_ai_is_ai (msgs : list BaseMessage) (msg : BaseMessage) :
  latest_ai msgs = Some msg -> is_ai msg = true.
Proof.
  unfold latest_ai. intros H.
  apply last_Some_elem_of, list_elem_of_In, List.filter_In in H. tauto.
Qed.

Lemma post_model_hook_run (state : AgentState) (configurable : gmap string PyVal)
    (actor_id thread_id : PyVal) (w : W) :
  configurable !! "actor_id" = Some actor_id ->
  configurable !! "thread_id" = Some thread_id ->
  post_model_hook uuid4 store_put state configurable w =
    match latest_ai (messages state) with
    | Some msg =>
        let '(id, w1) := uuid4 w in
        match store_put (actor_id, thread_id) id msg w1 with
        | (Returns _, w2) =>
            (Returns state, w2, [EvUuid id; EvPut (actor_id, thread_id) id msg])
        | (Raises e, w2) =>
            (Raises e, w2, [EvUuid id; EvPut (actor_id, thread_id) id msg])
        end
    | None => (Returns state, w, [])
    end.
Proof.
  intros Ha Ht. unfold post_model_hook, bind, lift, getitem, ret.
  rewrite Ha, Ht, save_last_ai_latest.
  destruct (latest_ai (messages state)) as [msg|] eqn:Hlatest; [|reflexivity].
  cbn [save_last_ai]. rewrite (latest_ai_is_ai _ _ Hlatest).
  unfold bind, sample, extern. destruct (uuid4 w) as [id w1].
  destruct (store_put (actor_id, thread_id) id msg w1) as [[[]|e] w2]; reflexivity.
Qed.
End MoreHookFacts.

(** X8: the post-hook, with both ids configured.  On a state with an
    assistant message it draws one id and makes exactly one store write, the
    most recent assistant message under that id in the (actor_id, thread_id)
    namespace; it returns the state it was given when the write succeeds and
    raises the store's exception when it does not.  It never looks anything
    up, and on a state without assistant message it has no effect at all. *)
Theorem post_hook_saves_latest_assistant_message {W : Type}
    (uuid4 : W -> string * W)
    (store_put : AwsMemory.Namespace -> string -> AwsMemory.BaseMessage -> W -> outcome unit * W)
    (state : AwsMemory.AgentState) (configurable : gmap string AwsMemory.PyVal)
    (actor_id thread_id : AwsMemory.PyVal) (w : W) :
  configurable !! "actor_id" = Some actor_id ->
  configurable !! "thread_id" = Some thread_id ->
  let run := MemoryHooks.post_model_hook uuid4 store_put state configurable w in
  MemoryHooks.lookups (trace_of run) = [] /\
  (MemoryHooks.latest_ai (AwsMemory.messages state) = None ->
   run = (Returns state, w, [])) /\
  (forall msg,
     MemoryHooks.latest_ai (AwsMemory.messages state) = Some msg ->
     MemoryHooks.puts (trace_of run) = [((actor_id, thread_id), (uuid4 w).1, msg)] /\
     (forall w2, store_put (actor_id, thread_id) (uuid4 w).1 msg (uuid4 w).2 = (Returns tt, w2) ->
                 result_of run = Returns state) /\
     (forall e w2, store_put (actor_id, thread_id) (uuid4 w).1 msg (uuid4 w).2 = (Raises e, w2) ->
                   result_of run = Raises e)).
Proof.
  intros Ha Ht run. subst run. rewrite (post_model_hook_run _ _ _ _ _ _ _ Ha Ht).
  destruct (MemoryHooks.latest_ai (AwsMemory.messages state)) as [msg|].
  - destruct (uuid4 w) as [id w1]. cbn [fst snd].
    destruct (store_put (actor_id, thread_id) id msg w1) as [[[]|e] w2] eqn:Hput.
    + split; [reflexivity|]. split; [discriminate|]. intros msg' [= <-].
      rewrite Hput. split; [reflexivity|]. split; [reflexivity | discriminate].
    + split; [reflexivity|]. split; [discriminate|]. intros msg' [= <-].
      rewrite Hput. split; [reflexivity|]. split; [discriminate|].
      now intros e' w2' [= <- _].
  - split; [reflexivity|]. split; [reflexivity | discriminate].
Qed.

Lemma post_hook_saves_latest_assistant_message_witness :
  MemoryHooks.puts
    (trace_of (MemoryHooks.post_model_hook AwsMemory.counter_uuid4 AwsMemory.accepting_put
                 (AwsMemory.mkState [AwsMemory.HumanMessage "hi"; AwsMemory.AIMessage "draft" [];
                                     AwsMemory.ToolMessage "42"; AwsMemory.AIMessage "done" []])
                 (<["thread_id" := AwsMemory.PStr "t1"]> (<["actor_id" := AwsMemory.PStr "u1"]> ∅))
                 7))
  = [((AwsMemory.PStr "u1", AwsMemory.PStr "t1"), "id-7", AwsMemory.AIMessage "done" [])].
Proof.
  destruct (post_hook_saves_latest_assistant_message
              AwsMemory.counter_uuid4 AwsMemory.accepting_put
              (AwsMemory.mkState [AwsMemory.HumanMessage "hi"; AwsMemory.AIMessage "draft" [];
                                  AwsMemory.ToolMessage "42"; AwsMemory.AIMessage "done" []])
              (<["thread_id" := AwsMemory.PStr "t1"]> (<["actor_id" := AwsMemory.PStr "u1"]> ∅))
              (AwsMemory.PStr "u1") (AwsMemory.PStr "t1") 7)
    as (_ & _ & Hsave); [reflexivity | reflexivity |].
  apply (Hsave (AwsMemory.AIMessage "done" [])). reflexivity.
Defined.

(** X9: the pre-hook does not guard its store write.  When the store refuses
    the write of the latest user message, the hook raises the store's
    exception and the preference lookup is never made. *)
Theorem pre_hook_put_failure_propagates {W : Type}
    (uuid4 : W -> string * W)
    (store_put : AwsMemory.Namespace -> string -> AwsMemory.BaseMessage -> W -> outcome unit * W)
    (store_search : AwsMemory.Namespace -> string -> nat -> W
                    -> outcome (list AwsMemory.Item) * W)
    (state : AwsMemory.AgentState) (configurable : gmap string AwsMemory.PyVal)
    (actor_id thread_id : AwsMemory.PyVal) (msg : AwsMemory.BaseMessage)
    (id : string) (e : PyExc) (w w1 w2 : W) :
  configurable !! "actor_id" = Some actor_id ->
  configurable !! "thread_id" = Some thread_id ->
  AwsMemory.latest_human (AwsMemory.messages state) = Some msg ->
  uuid4 w = (id, w1) ->
  store_put (actor_id, thread_id) id msg w1 = (Raises e, w2) ->
  let run := AwsMemory.pre_model_hook uuid4 store_put store_search state configurable w in
  run = (Raises e, w2, [AwsMemory.EvUuid id; AwsMemory.EvPut (actor_id, thread_id) id msg]) /\
  MemoryHooks.lookups (trace_of run) = [].
Proof.
  intros Ha Ht Hlatest Hid Hput run. subst run.
  rewrite (pre_model_hook_run _ _ _ _ _ _ _ _ Ha Ht), Hlatest, Hid, Hput.
  split; reflexivity.
Qed.

Lemma pre_hook_put_failure_propagates_witness :
  AwsMemory.pre_model_hook AwsMemory.counter_uuid4
    (fun _ _ _ (w : nat) => (Raises (mkExc "ThrottlingException" "slow down"), w))
    (AwsMemory.fixed_lookup (Returns []))
    (AwsMemory.mkState [AwsMemory.HumanMessage "hi"])
    (<["thread_id" := AwsMemory.PStr "t1"]> (<["actor_id" := AwsMemory.PStr "u1"]> ∅)) 0
  = (Raises (mkExc "ThrottlingException" "slow down"), 1,
     [AwsMemory.EvUuid "id-0";
      AwsMemory.EvPut (AwsMemory.PStr "u1", AwsMemory.PStr "t1") "id-0"
        (AwsMemory.HumanMessage "hi")]).
Proof.
  apply (pre_hook_put_failure_propagates AwsMemory.counter_uuid4
           (fun _ _ _ (w : nat) => (Raises (mkExc "ThrottlingException" "slow down"), w))
           (AwsMemory.fixed_lookup (Returns []))
           (AwsMemory.mkState [AwsMemory.HumanMessage "hi"])
           (<["thread_id" := AwsMemory.PStr "t1"]> (<["actor_id" := AwsMemory.PStr "u1"]> ∅))
           (AwsMemory.PStr "u1") (AwsMemory.PStr "t1") (AwsMemory.HumanMessage "hi")
           "id-0" (mkExc "ThrottlingException" "slow down") 0 1 1);
    reflexivity.
Defined.

(** X10: both hooks read the actor id and then the thread id from the
    configuration before anything else.  When one of them is missing the
    hook raises KeyError for that key (for the actor id if both are
    missing), whose text is the key between single quotes, without drawing
    an id or touching the store. *)
Theorem hooks_need_both_ids {W : Type}
    (uuid4 : W -> string * W)
    (store_put : AwsMemory.Namespace -> string -> AwsMemory.BaseMessage -> W -> outcome unit * W)
    (store_search : AwsMemory.Namespace -> string -> nat -> W
                    -> outcome (list AwsMemory.Item) * W)
    (state : AwsMemory.AgentState) (configurable : gmap string AwsMemory.PyVal)
    (key : string) (w : W) :
  (configurable !! "actor_id" = None /\ key = "actor_id") \/
    (is_Some (configurable !! "actor_id") /\
     configurable !! "thread_id" = None /\ key = "thread_id") ->
  AwsMemory.pre_model_hook uuid4 store_put store_search state configurable w
    = (Raises (mkExc "KeyError" ("'" +:+ key +:+ "'")), w, []) /\
  MemoryHooks.post_model_hook uuid4 store_put state configurable w
    = (Raises (mkExc "KeyError" ("'" +:+ key +:+ "'")), w, []).
Proof.
  unfold AwsMemory.pre_model_hook, MemoryHooks.post_model_hook, bind, lift,
    AwsMemory.getitem.
  intros [[Ha ->] | [[actor_id Ha] [Ht ->]]]; rewrite Ha; [|rewrite Ht];
    split; reflexivity.
Qed.

Lemma hooks_need_both_ids_witness :
  AwsMemory.pre_model_hook AwsMemory.counter_uuid4 AwsMemory.accepting_put
    (AwsMemory.fixed_lookup (Returns []))
    (AwsMemory.mkState [AwsMemory.HumanMessage "hi"])
    (<["actor_id" := AwsMemory.PStr "u1"]> ∅) 0
  = (Raises (mkExc "KeyError" "'thread_id'"), 0, []).
Proof.
  apply (hooks_need_both_ids AwsMemory.counter_uuid4 AwsMemory.accepting_put
           (AwsMemory.fixed_lookup (Returns []))
           (AwsMemory.mkState [AwsMemory.HumanMessage "hi"])
           (<["actor_id" := AwsMemory.PStr "u1"]> ∅) "thread_id" 0).
  right. split; [now eexists | split; reflexivity].
Defined.

(** ** lanchain_agent_aws_memory.py: the entrypoint, further *)

Section MoreEntrypointFacts.
Import PyStr AwsMemory MemoryHooks.

Lemma session_config_ids (d : gmap string PyVal) :
  session_config d !! "actor_id" = Some (payload_actor d) /\
  session_config d !! "thread_id" = Some (payload_thread d).
Proof.
  unfold session_config, payload_actor, payload_thread. split.
  - now simplify_map_eq.
  - simplify_map_eq. destruct (d !! "thread_id"), (d !! "session_id"); reflexivity.
Qed.

Lemma prints_have_no_puts (prints : list Event) :
  Forall is_print prints -> puts prints = [] /\ lookups prints = [].
Proof.
  induction 1 as [|ev prints [text ->] _ [IHp IHl]]; [now split|].
  split; [exact IHp | exact IHl].
Qed.

Lemma saved_trace_puts (ns lookup_ns : Namespace) (id query : string)
    (msg : BaseMessage) (prints : list Event) :
  Forall is_print prints ->
  puts (EvUuid id :: EvPut ns id msg :: EvSearch lookup_ns query 5 :: prints)
    = [(ns, id, msg)].
Proof.
  intros Hprints. apply prints_have_no_puts in Hprints as [Hp _].
  change (EvUuid id :: EvPut ns id msg :: EvSearch lookup_ns query 5 :: prints)
    with ([EvUuid id; EvPut ns id msg; EvSearch lookup_ns query 5] ++ prints).
  unfold puts in *. now rewrite omap_app, Hp.
Qed.

Lemma saved_trace_lookups (ns lookup_ns : Namespace) (id query : string)
    (msg : BaseMessage) (prints : list Event) :
  Forall is_print prints ->
  lookups (EvUuid id :: EvPut ns id msg :: EvSearch lookup_ns query 5 :: prints)
    = [(lookup_ns, query, 5)].
Proof.
  intros Hprints. apply prints_have_no_puts in Hprints as [_ Hl].
  change (EvUuid id :: EvPut ns id msg :: EvSearch lookup_ns query 5 :: prints)
    with ([EvUuid id; EvPut ns id msg; EvSearch lookup_ns query 5] ++ prints).
  unfold lookups in *. now rewrite omap_app, Hl.
Qed.

Lemma py_last_raises {A} (l : list A) (e : PyExc) :
  py_last l = Raises e -> e = mkExc "IndexError" "list index out of range" /\ l = [].
Proof.
  unfold py_last. destruct (last l) eqn:Hl; [discriminate|].
  intros [= <-]. split; [reflexivity | now apply last_None].
Qed.

(** A chunk with an empty message list makes the loop raise, wherever it is
    in the stream. *)
Lemma stream_loop_empty_chunk (chunks : list Chunk) (step : nat)
    (final_answer : option string) :
  has_empty_messages chunks ->
  stream_loop chunks step final_answer
    = Raises (mkExc "IndexError" "list index out of range").
Proof.
  intros Hempty. revert step final_answer.
  induction Hempty as [chunk rest Hchunk | chunk rest _ IH]; intros step final_answer.
  - cbn [stream_loop]. now rewrite Hchunk.
  - cbn [stream_loop]. destruct (chunk_messages chunk) as [msgs|]; [|apply IH].
    destruct (py_last msgs) as [m|e] eqn:Hm.
    + destruct (final_answer_of m); apply IH.
    + now apply py_last_raises in Hm as [-> _].
Qed.

(** The loop counts every chunk, and an answer it ends with is either the
    one it started with or a non-empty text taken from a chunk. *)
Lemma stream_loop_result (chunks : list Chunk) (step n : nat)
    (final_answer r : option string) :
  stream_loop chunks step final_answer = Returns (n, r) ->
  n = step + length chunks /\
  (r = final_answer \/
   exists answer, r = Some answer /\ truthy answer = true /\ 0 < length chunks).
Proof.
  revert step final_answer. induction chunks as [|chunk rest IH]; intros step final_answer.
  - cbn. intros [= <- <-]. split; [lia | now left].
  - cbn [stream_loop length].
    assert (Hstep : forall fa,
              stream_loop rest (step + 1) fa = Returns (n, r) ->
              n = step + S (length rest) /\
              (r = fa \/ exists answer, r = Some answer /\ truthy answer = true
                                        /\ 0 < S (length rest))).
    { intros fa H. apply IH in H as [-> [-> | (answer & -> & Ht & _)]].
      - split; [lia | now left].
      - split; [lia|]. right. exists answer. repeat split; [exact Ht | lia]. }
    destruct (chunk_messages chunk) as [msgs|]; [|apply Hstep].
    destruct (py_last msgs) as [m|e]; [|discriminate].
    destruct (final_answer_of m) as [c|] eqn:Hc; [|apply Hstep].
    intros H. apply Hstep in H as [-> [-> | Hr]].
    + split; [reflexivity|]. right. exists c.
      repeat split; [now apply final_answer_of_truthy in Hc | lia].
    + split; [reflexivity | now right].
Qed.

Lemma stream_outcome_answer (chunks : list Chunk) (stop : option PyExc) (n : nat)
    (answer : string) :
  stream_outcome chunks stop = Returns (n, Some answer) ->
  truthy answer = true /\ 0 < n.
Proof.
  unfold stream_outcome.
  destruct (stream_loop chunks 0 None) as [[n' r]|e] eqn:Hloop; [|discriminate].
  destruct stop; [discriminate|]. intros [= -> ->].
  apply stream_loop_result in Hloop as [-> [[=] | (a & [= <-] & Ht & Hlen)]].
  split; [exact Ht | lia].
Qed.

Lemma success_record_fields (answer : string) (step : nat) :
  success_record answer step !! "error" = None /\
  success_record answer step !! "result" = Some (PStr answer) /\
  success_record answer step !! "steps" = Some (PInt (Z.of_nat step)) /\
  success_record answer step !! "success" = Some (PBool true).
Proof. unfold success_record. repeat split; now simplify_map_eq. Qed.

Lemma error_record_steps (msg : string) :
  error_record msg !! "steps" = None /\
  (<["success" := PBool false]> (error_record msg)) !! "steps" = None.
Proof. unfold error_record. split; now simplify_map_eq. Qed.
End MoreEntrypointFacts.

(** X11: the configuration the entrypoint builds always carries both ids
    the hooks read: the actor id is the payload's "actor_id" or
    "default-user"; the thread id is the payload's "thread_id", else its
    "session_id", else "default-session".  Run with it, the pre-hook writes
    only to the (actor, thread) namespace, looks up only
    ("preferences", actor) with limit 5, and can raise only what the store
    write raises. *)
Theorem entrypoint_config_suits_the_hooks {W : Type}
    (uuid4 : W -> string * W)
    (store_put : AwsMemory.Namespace -> string -> AwsMemory.BaseMessage -> W -> outcome unit * W)
    (store_search : AwsMemory.Namespace -> string -> nat -> W
                    -> outcome (list AwsMemory.Item) * W)
    (state : AwsMemory.AgentState) (d : gmap string AwsMemory.PyVal) (w : W) :
  let actor := MemoryHooks.payload_actor d in
  let thread := MemoryHooks.payload_thread d in
  let run := AwsMemory.pre_model_hook uuid4 store_put store_search state
               (AwsMemory.session_config d) w in
  (AwsMemory.session_config d !! "actor_id" = Some actor /\
   AwsMemory.session_config d !! "thread_id" = Some thread) /\
  (forall ns id msg, (ns, id, msg) ∈ MemoryHooks.puts (trace_of run) ->
                     ns = (actor, thread)) /\
  (forall ns query limit, (ns, query, limit) ∈ MemoryHooks.lookups (trace_of run) ->
                          ns = (AwsMemory.PStr "preferences", actor) /\ limit = 5) /\
  (forall e, result_of run = Raises e ->
             exists id msg w0 w1, store_put (actor, thread) id msg w0 = (Raises e, w1)).
Proof.
  cbv zeta. destruct (session_config_ids d) as [Ha Ht]. split; [now split|].
  rewrite (pre_model_hook_run _ _ _ _ _ _ _ _ Ha Ht).
  destruct (AwsMemory.latest_human (AwsMemory.messages state)) as [msg|].
  2: { cbn. split; [|split].
       - intros ns id msg Hin. now apply elem_of_nil in Hin.
       - intros ns query limit Hin. now apply elem_of_nil in Hin.
       - intros e He. discriminate He. }
  destruct (uuid4 w) as [id w1].
  destruct (store_put _ id msg w1) as [[[]|e] w2] eqn:Hput.
  - destruct (retrieve_preferences_run store_search (MemoryHooks.payload_actor d) msg w2)
      as (w3 & prints & -> & Hprints & _).
    cbn [trace_of result_of fst snd].
    rewrite (saved_trace_puts _ _ _ _ _ _ Hprints), (saved_trace_lookups _ _ _ _ _ _ Hprints).
    split; [|split].
    + intros ns id' msg' Hin. apply list_elem_of_singleton in Hin. now injection Hin.
    + intros ns query limit Hin. apply list_elem_of_singleton in Hin.
      injection Hin as -> _ ->. now split.
    + intros e He. discriminate He.
  - cbn. split; [|split].
    + intros ns id' msg' Hin. apply list_elem_of_singleton in Hin. now injection Hin.
    + intros ns query limit Hin. now apply elem_of_nil in Hin.
    + intros e' [= <-]. now exists id, msg, w1, w2.
Qed.

Lemma entrypoint_config_suits_the_hooks_witness :
  (AwsMemory.PStr "default-user", AwsMemory.PStr "s9")
  = (MemoryHooks.payload_actor
       (<["prompt" := AwsMemory.PStr "hi"]> (<["session_id" := AwsMemory.PStr "s9"]> ∅)),
     MemoryHooks.payload_thread
       (<["prompt" := AwsMemory.PStr "hi"]> (<["session_id" := AwsMemory.PStr "s9"]> ∅))).
Proof.
  destruct (entrypoint_config_suits_the_hooks
              AwsMemory.counter_uuid4 AwsMemory.accepting_put
              (AwsMemory.fixed_lookup (Returns []))
              (AwsMemory.mkState [AwsMemory.HumanMessage "hi"])
              (<["prompt" := AwsMemory.PStr "hi"]> (<["session_id" := AwsMemory.PStr "s9"]> ∅))
              0) as (_ & Hputs & _).
  apply (Hputs (AwsMemory.PStr "default-user", AwsMemory.PStr "s9") "id-0"
           (AwsMemory.HumanMessage "hi")).
  apply list_elem_of_singleton. reflexivity.
Defined.

Section StartFacts.
Import PyStr AwsMemory MemoryHooks.
Context {W : Type}.
Variable agent_stream :
  list BaseMessage -> gmap string PyVal -> W -> (list Chunk * option PyExc) * W.

Lemma stream_calls_after_stream (w1 : W) (user_message : string) (d : gmap string PyVal)
    (o : outcome (nat * option string)) :
  stream_calls (trace_of (after_stream w1 user_message d o))
    = [([HumanMessage user_message], session_config d)].
Proof.
  unfold after_stream. destruct o as [[step [answer|]]|e]; try reflexivity.
  destruct (truthy answer); reflexivity.
Qed.

(** The runs of the agent that [agent_invocation] starts, for a payload that
    is a dict with entries. *)
Lemma stream_calls_dict (d : gmap string PyVal) (w : W) :
  py_truthy (PDict d) = true ->
  stream_calls (trace_of (agent_invocation agent_stream (PDict d) w)) =
    match py_strip (default (PStr "") (d !! "prompt")) with
    | Returns user_message =>
        if truthy user_message then [([HumanMessage user_message], session_config d)]
        else []
    | Raises _ => []
    end.
Proof.
  intros Hd. rewrite (agent_invocation_dict _ _ _ Hd), handle_payload_run.
  destruct (py_strip _) as [user_message|e]; [|reflexivity].
  destruct (truthy user_message); [|reflexivity].
  destruct (agent_stream _ _ w) as [[chunks stop] w1].
  pose proof (stream_calls_after_stream w1 user_message d (stream_outcome chunks stop)) as H.
  destruct (after_stream w1 user_message d (stream_outcome chunks stop))
    as [[[record|e] w2] t] eqn:Hafter; [exact H|].
  destruct (after_stream_returns w1 user_message d (stream_outcome chunks stop))
    as (record & t' & Hret & _). rewrite Hret in Hafter. discriminate.
Qed.
End StartFacts.

(** X12: one invocation starts the agent at most once.  It starts it exactly
    when the payload is a dict whose "prompt" is a string with something
    other than whitespace in it, and then with a single user message holding
    the stripped prompt and with the configuration built from the payload;
    a payload that fails a check never reaches the agent. *)
Theorem agent_started_at_most_once {W : Type}
    (agent_stream : list AwsMemory.BaseMessage -> gmap string AwsMemory.PyVal -> W
                    -> (list AwsMemory.Chunk * option PyExc) * W)
    (payload : AwsMemory.PyVal) (w : W) :
  let started :=
    MemoryHooks.stream_calls (trace_of (AwsMemory.agent_invocation agent_stream payload w)) in
  (started = [] \/
   exists d s,
     payload = AwsMemory.PDict d /\ d !! "prompt" = Some (AwsMemory.PStr s) /\
     PyStr.strip s <> "" /\
     started = [([AwsMemory.HumanMessage (PyStr.strip s)], AwsMemory.session_config d)]) /\
  (forall d s,
     payload = AwsMemory.PDict d -> d !! "prompt" = Some (AwsMemory.PStr s) ->
     PyStr.strip s <> "" ->
     started = [([AwsMemory.HumanMessage (PyStr.strip s)], AwsMemory.session_config d)]).
Proof.
  cbv zeta. split.
  - destruct (AwsMemory.py_truthy payload && AwsMemory.isinstance_dict payload) eqn:Hok.
    + apply andb_true_iff in Hok as [Ht Hd].
      destruct payload as [| | | | |d]; try discriminate.
      rewrite (stream_calls_dict _ _ _ Ht).
      destruct (d !! "prompt") as [[| | |s| |]|] eqn:Hprompt; cbn; try (now left).
      destruct (PyStr.strip s) as [|c rest] eqn:Hs; cbn; [now left|].
      right. exists d, s. rewrite Hs. repeat split; [exact Hprompt | discriminate].
    + rewrite agent_invocation_invalid; [now left|].
      apply andb_false_iff in Hok. tauto.
  - intros d s -> Hprompt Hs.
    rewrite (stream_calls_dict _ _ _ (dict_with_key_truthy _ _ _ Hprompt)), Hprompt. cbn.
    destruct (PyStr.strip s); [contradiction | reflexivity].
Qed.

Lemma agent_started_at_most_once_witness :
  MemoryHooks.stream_calls
    (trace_of (AwsMemory.agent_invocation
                 (AwsMemory.replay_stream [] (Some (mkExc "RuntimeError" "boom")))
                 (AwsMemory.PDict (<["prompt" := AwsMemory.PStr "  2+2?  "]> ∅)) 0))
  = [([AwsMemory.HumanMessage "2+2?"],
      AwsMemory.session_config (<["prompt" := AwsMemory.PStr "  2+2?  "]> ∅))].
Proof.
  destruct (agent_started_at_most_once
              (AwsMemory.replay_stream [] (Some (mkExc "RuntimeError" "boom")))
              (AwsMemory.PDict (<["prompt" := AwsMemory.PStr "  2+2?  "]> ∅)) 0)
    as [_ Hstart].
  apply (Hstart (<["prompt" := AwsMemory.PStr "  2+2?  "]> ∅) "  2+2?  ");
    [reflexivity | reflexivity | discriminate].
Defined.

(** X13: a chunk whose "messages" list is empty aborts the invocation.  The
    answer extraction indexes the last message of every chunk that has the
    key, so one such chunk anywhere in the stream makes the entrypoint
    return the error record of an IndexError, whatever answers the chunks
    before or after it carry and however the stream ends. *)
Theorem empty_chunk_aborts_the_run {W : Type}
    (agent_stream : list AwsMemory.BaseMessage -> gmap string AwsMemory.PyVal -> W
                    -> (list AwsMemory.Chunk * option PyExc) * W)
    (d : gmap string AwsMemory.PyVal) (s : string) (chunks : list AwsMemory.Chunk)
    (stop : option PyExc) (w w1 : W) :
  d !! "prompt" = Some (AwsMemory.PStr s) ->
  PyStr.strip s <> "" ->
  agent_stream [AwsMemory.HumanMessage (PyStr.strip s)] (AwsMemory.session_config d) w
    = (chunks, stop, w1) ->
  MemoryHooks.has_empty_messages chunks ->
  result_of (AwsMemory.agent_invocation agent_stream (AwsMemory.PDict d) w)
    = Returns (AwsMemory.error_record
                 "Error during agent execution: list index out of range").
Proof.
  intros Hprompt Hs Hstream Hempty.
  rewrite (agent_invocation_dict _ _ _ (dict_with_key_truthy _ _ _ Hprompt)).
  rewrite handle_payload_run, Hprompt. cbn [default from_option id AwsMemory.py_strip].
  destruct (PyStr.strip s) as [|c rest] eqn:Hstrip; [contradiction|].
  cbn [PyStr.truthy]. rewrite Hstream. unfold AwsMemory.stream_outcome.
  now rewrite (stream_loop_empty_chunk _ _ _ Hempty).
Qed.

Lemma empty_chunk_aborts_the_run_witness :
  result_of (AwsMemory.agent_invocation
               (AwsMemory.replay_stream
                  [AwsMemory.mkChunk (Some [AwsMemory.AIMessage "4" []]);
                   AwsMemory.mkChunk (Some [])] None)
               (AwsMemory.PDict (<["prompt" := AwsMemory.PStr "2+2?"]> ∅)) 0)
  = Returns (AwsMemory.error_record
               "Error during agent execution: list index out of range").
Proof.
  apply (empty_chunk_aborts_the_run
           (AwsMemory.replay_stream
              [AwsMemory.mkChunk (Some [AwsMemory.AIMessage "4" []]);
               AwsMemory.mkChunk (Some [])] None)
           (<["prompt" := AwsMemory.PStr "2+2?"]> ∅) "2+2?"
           [AwsMemory.mkChunk (Some [AwsMemory.AIMessage "4" []]);
            AwsMemory.mkChunk (Some [])] None 0 0).
  - reflexivity.
  - discriminate.
  - reflexivity.
  - apply Exists_cons_tl, Exists_cons_hd. reflexivity.
Defined.

(** X14: the keys of the returned record tell success from failure.  For
    every payload the record either has a text under "error", [None] under
    "result" and no "steps", or has no "error" at all, a non-empty text
    under "result", a positive number under "steps" and [True] under
    "success". *)
Theorem returned_record_keys {W : Type}
    (agent_stream : list AwsMemory.BaseMessage -> gmap string AwsMemory.PyVal -> W
                    -> (list AwsMemory.Chunk * option PyExc) * W)
    (payload : AwsMemory.PyVal) (w : W) :
  exists record,
    result_of (AwsMemory.agent_invocation agent_stream payload w) = Returns record /\
    ((exists msg,
        record !! "error" = Some (AwsMemory.PStr msg) /\
        record !! "result" = Some AwsMemory.PNone /\
        record !! "steps" = None) \/
     (exists answer steps,
        record !! "error" = None /\
        record !! "result" = Some (AwsMemory.PStr answer) /\ answer <> "" /\
        record !! "steps" = Some (AwsMemory.PInt (Z.of_nat steps)) /\ 0 < steps /\
        record !! "success" = Some (AwsMemory.PBool true))).
Proof.
  assert (Herr : forall msg,
            exists m, AwsMemory.error_record msg !! "error" = Some (AwsMemory.PStr m) /\
                      AwsMemory.error_record msg !! "result" = Some AwsMemory.PNone /\
                      AwsMemory.error_record msg !! "steps" = None).
  { intros msg. exists msg. destruct (error_record_fields msg) as [He Hr].
    destruct (error_record_steps msg) as [Hs _]. now repeat split. }
  destruct (AwsMemory.py_truthy payload && AwsMemory.isinstance_dict payload) eqn:Hok.
  - apply andb_true_iff in Hok as [Ht Hd].
    destruct payload as [| | | | |d]; try discriminate.
    rewrite (agent_invocation_dict _ _ _ Ht), handle_payload_run.
    destruct (AwsMemory.py_strip _) as [user_message|e].
    + destruct (PyStr.truthy user_message).
      * destruct (agent_stream _ _ w) as [[chunks stop] w1].
        unfold AwsMemory.after_stream.
        destruct (AwsMemory.stream_outcome chunks stop) as [[step [answer|]]|e] eqn:Ho.
        -- apply stream_outcome_answer in Ho as [Ha Hstep]. rewrite Ha.
           eexists. split; [reflexivity|]. right. exists answer, step.
           destruct (success_record_fields answer step) as (H1 & H2 & H3 & H4).
           repeat split; try assumption. intros ->. discriminate.
        -- eexists. split; [reflexivity|]. left. apply Herr.
        -- eexists. split; [reflexivity|]. left. apply Herr.
      * eexists. split; [reflexivity|]. left. apply Herr.
    + eexists. split; [reflexivity|]. left.
      exists ("Unexpected error in agent_invocation: " +:+ exc_str e).
      unfold AwsMemory.error_record. repeat split; now simplify_map_eq.
  - rewrite agent_invocation_invalid.
    + eexists. split; [reflexivity|]. left. apply Herr.
    + apply andb_false_iff in Hok. tauto.
Qed.

Lemma returned_record_keys_witness :
  exists record,
    result_of (AwsMemory.agent_invocation (AwsMemory.replay_stream [] None)
                 (AwsMemory.PDict (<["prompt" := AwsMemory.PInt 5]> ∅)) 0)
      = Returns record /\
    ((exists msg,
        record !! "error" = Some (AwsMemory.PStr msg) /\
        record !! "result" = Some AwsMemory.PNone /\
        record !! "steps" = None) \/
     (exists answer steps,
        record !! "error" = None /\
        record !! "result" = Some (AwsMemory.PStr answer) /\ answer <> "" /\
        record !! "steps" = Some (AwsMemory.PInt (Z.of_nat steps)) /\ 0 < steps /\
        record !! "success" = Some (AwsMemory.PBool true))).
Proof.
  exact (returned_record_keys (AwsMemory.replay_stream [] None)
           (AwsMemory.PDict (<["prompt" := AwsMemory.PInt 5]> ∅)) 0).
Defined.

(** ** print_stream_chunk *)

Section DisplayFacts.
Import PyStr AwsMemory StreamDisplay.

Lemma string_app_inj (a b c : string) : a +:+ b = a +:+ c -> b = c.
Proof.
  induction a as [|x a IH]; [trivial|].
  rewrite !string_app_cons. intros [= H]. now apply IH.
Qed.

Lemma step_header_inj (step : nat) (a b : string) :
  step_header step a = step_header step b -> a = b.
Proof.
  unfold step_header. intros H. now do 4 apply string_app_inj in H.
Qed.

Lemma py_len_app (a b : string) : py_len (a +:+ b) = py_len a + py_len b.
Proof.
  induction a as [|x a IH]; [reflexivity|].
  rewrite string_app_cons. cbn [py_len]. rewrite IH. now destruct (is_continuation x).
Qed.

Lemma py_len_take (n : nat) (s : string) : py_len (py_take n s) = Nat.min n (py_len s).
Proof.
  revert n. induction s as [|c s IH]; intros n; [now destruct n|].
  cbn [py_take py_len]. destruct (is_continuation c) eqn:Hc.
  - cbn [py_len]. now rewrite Hc, IH.
  - destruct n as [|n]; [reflexivity|]. cbn [py_len]. rewrite Hc, IH. reflexivity.
Qed.
End DisplayFacts.

(** Refutes that the lines of another branch of [print_stream_chunk] are
    the FINAL ANSWER lines: the headers differ. *)
Ltac other_header :=
  let H := fresh "H" in
  first [ now intros [= H _]
        | intros [= H _]; apply step_header_inj in H; discriminate H ].

(** X15: what is shown agrees with what is kept.  For a chunk at step
    [step + 1], the streaming loop captures [answer] as the final answer of
    that chunk exactly when [print_stream_chunk] announces it: the lines it
    prints are the FINAL ANSWER header of that step and the answer. *)
Theorem final_answer_shown_iff_captured
    (format_args : AwsMemory.PyVal -> string) (chunk : AwsMemory.Chunk)
    (step : nat) (answer : string) :
  AwsMemory.stream_loop [chunk] step None = Returns (step + 1, Some answer) <->
  StreamDisplay.print_stream_chunk format_args chunk (step + 1)
    = [StreamDisplay.step_header (step + 1) "✅ FINAL ANSWER:";
       PyStr.newline +:+ "🤖 " +:+ answer].
Proof.
  unfold StreamDisplay.print_stream_chunk. cbn [AwsMemory.stream_loop].
  destruct (AwsMemory.chunk_messages chunk) as [msgs|]; [|split; discriminate].
  unfold py_last. destruct (last msgs) as [m|]; [|split; discriminate].
  destruct m as [c|c tcs|c|c]; cbn.
  - split; discriminate.
  - destruct tcs as [|tc tcs]; cbn.
    + destruct (PyStr.truthy c); cbn.
      * split.
        -- now intros [= ->].
        -- intros [= H]. change (c = answer) in H. now subst c.
      * split; discriminate.
    + rewrite andb_false_r. split; [discriminate|]. other_header.
  - split; [discriminate|]. other_header.
  - split; discriminate.
Qed.

Lemma final_answer_shown_iff_captured_witness :
  StreamDisplay.print_stream_chunk (fun _ => "{}")
    (AwsMemory.mkChunk (Some [AwsMemory.HumanMessage "2+2?"; AwsMemory.AIMessage "4" []]))
    (1 + 1)
  = [StreamDisplay.step_header (1 + 1) "✅ FINAL ANSWER:"; PyStr.newline +:+ "🤖 " +:+ "4"].
Proof.
  apply (final_answer_shown_iff_captured (fun _ => "{}")
           (AwsMemory.mkChunk (Some [AwsMemory.HumanMessage "2+2?"; AwsMemory.AIMessage "4" []]))
           1 "4").
  reflexivity.
Defined.

(** X16: a tool response is shown in at most 503 characters.  For a chunk
    whose last message is a tool message, [print_stream_chunk] prints the
    tool-response header and one line with the content: whole when it has at
    most 500 characters, else its first 500 characters followed by "...". *)
Theorem tool_response_display_is_bounded
    (format_args : AwsMemory.PyVal -> string) (chunk : AwsMemory.Chunk)
    (msgs : list AwsMemory.BaseMessage) (content : string) (step : nat) :
  AwsMemory.chunk_messages chunk = Some msgs ->
  last msgs = Some (AwsMemory.ToolMessage content) ->
  exists shown,
    StreamDisplay.print_stream_chunk format_args chunk step
      = [StreamDisplay.step_header step "🔍 Tool response received:";
         "   💡 " +:+ shown] /\
    PyStr.py_len shown <= 503 /\
    (PyStr.py_len content <= 500 -> shown = content) /\
    (500 < PyStr.py_len content ->
     shown = PyStr.py_take 500 content +:+ "..." /\ PyStr.py_len shown = 503).
Proof.
  intros Hmsgs Hlast. exists (StreamDisplay.shown_tool_text content).
  unfold StreamDisplay.print_stream_chunk. rewrite Hmsgs, Hlast.
  cbn [AwsMemory.list_truthy StreamDisplay.requested_tool_calls].
  split; [reflexivity|]. unfold StreamDisplay.shown_tool_text.
  destruct (Nat.ltb_spec 500 (PyStr.py_len content)) as [Hlong|Hshort].
  - assert (Hlen : PyStr.py_len (PyStr.py_take 500 content +:+ "...") = 503).
    { rewrite py_len_app, py_len_take.
      change (PyStr.py_len "...") with 3. lia. }
    repeat split; [lia | lia | exact Hlen].
  - repeat split; [lia | lia | lia].
Qed.

Lemma tool_response_display_is_bounded_witness :
  exists shown,
    StreamDisplay.print_stream_chunk (fun _ => "{}")
      (AwsMemory.mkChunk (Some [AwsMemory.ToolMessage "café: 42 €"])) 3
      = [StreamDisplay.step_header 3 "🔍 Tool response received:"; "   💡 " +:+ shown] /\
    PyStr.py_len shown <= 503 /\
    (PyStr.py_len "café: 42 €" <= 500 -> shown = "café: 42 €").
Proof.
  destruct (tool_response_display_is_bounded (fun _ => "{}")
              (AwsMemory.mkChunk (Some [AwsMemory.ToolMessage "café: 42 €"]))
              [AwsMemory.ToolMessage "café: 42 €"] "café: 42 €" 3 eq_refl eq_refl)
    as (shown & Hprint & Hlen & Hshort & _).
  exists shown. split; [exact Hprint|]. split; [exact Hlen | exact Hshort].
Defined.

(** ** lanchain_agent.py: the interactive loop *)

Section StripFacts.
Import PyStr.

Ltac split_tests H :=
  repeat match type of H with
         | context [if ?x then _ else _] => destruct x eqn:?
         end.

Lemma lstrip_skip (s : string) :
  lstrip s = match skip_space s with Some rest => lstrip rest | None => s end.
Proof.
  destruct s as [|c1 [|c2 [|c3 s3]]]; try reflexivity; unfold skip_space.
  - change (lstrip (String c1 ""))
      with (if is_ascii_space c1 then lstrip "" else String c1 "").
    now destruct (is_ascii_space c1).
  - change (lstrip (String c1 (String c2 "")))
      with (if is_ascii_space c1 then lstrip (String c2 "")
            else if is_space2 c1 c2 then lstrip "" else String c1 (String c2 "")).
    destruct (is_ascii_space c1); [reflexivity|]. now destruct (is_space2 c1 c2).
  - change (lstrip (String c1 (String c2 (String c3 s3))))
      with (if is_ascii_space c1 then lstrip (String c2 (String c3 s3))
            else if is_space2 c1 c2 then lstrip (String c3 s3)
                 else if is_space3 c1 c2 c3 then lstrip s3
                      else String c1 (String c2 (String c3 s3))).
    destruct (is_ascii_space c1); [reflexivity|].
    destruct (is_space2 c1 c2); [reflexivity|]. now destruct (is_space3 c1 c2 c3).
Qed.

Lemma skip_space_shorter (s rest : string) :
  skip_space s = Some rest -> String.length rest < String.length s.
Proof.
  destruct s as [|c1 [|c2 [|c3 s3]]]; unfold skip_space; intros H; split_tests H;
    try discriminate H; injection H as <-; cbn [String.length]; lia.
Qed.

Lemma skip_space_app (a rest b : string) :
  skip_space a = Some rest -> skip_space (a +:+ b) = Some (rest +:+ b).
Proof.
  destruct a as [|c1 [|c2 [|c3 a3]]]; unfold skip_space at 1; intros H; split_tests H;
    try discriminate H; injection H as <-;
    rewrite ?string_app_cons, ?string_app_empty_l; unfold skip_space;
    repeat match goal with E : _ = _ |- _ => rewrite E end; reflexivity.
Qed.

Lemma lstrip_no_space (s : string) : skip_space (lstrip s) = None.
Proof.
  assert (H : forall n t, String.length t < n -> skip_space (lstrip t) = None).
  { induction n as [|n IH]; intros t Hlen; [lia|].
    rewrite lstrip_skip. destruct (skip_space t) as [rest|] eqn:Hs; [|exact Hs].
    apply IH. apply skip_space_shorter in Hs. lia. }
  apply (H (S (String.length s))). lia.
Qed.

Lemma lstrip_fixed (s : string) : skip_space s = None -> lstrip s = s.
Proof. intros H. now rewrite lstrip_skip, H. Qed.

Lemma lstrip_app_all (a b : string) : lstrip a = "" -> lstrip (a +:+ b) = lstrip b.
Proof.
  assert (H : forall n t, String.length t < n -> lstrip t = "" ->
                          lstrip (t +:+ b) = lstrip b).
  { induction n as [|n IH]; intros t Hlen Ht; [lia|].
    rewrite lstrip_skip in Ht. destruct (skip_space t) as [rest|] eqn:Hs.
    - rewrite (lstrip_skip (t +:+ b)), (skip_space_app _ _ b Hs).
      apply IH; [|exact Ht]. apply skip_space_shorter in Hs. lia.
    - now subst t. }
  apply (H (S (String.length a))). lia.
Qed.

Lemma rstrip_cons (c : ascii) (s : string) :
  rstrip (String c s) =
    match lstrip (String c s) with
    | EmptyString => EmptyString
    | String _ _ => String c (rstrip s)
    end.
Proof. reflexivity. Qed.

(** What [rstrip] removes is whitespace only. *)
Lemma rstrip_split (s : string) : exists q, s = rstrip s +:+ q /\ lstrip q = "".
Proof.
  induction s as [|c s (q & Hq & Hspace)]; [now exists ""|].
  rewrite rstrip_cons. destruct (lstrip (String c s)) eqn:E.
  - now exists (String c s).
  - exists q. split; [|exact Hspace]. now rewrite string_app_cons, <- Hq.
Qed.

Lemma rstrip_idem (s : string) : rstrip (rstrip s) = rstrip s.
Proof.
  induction s as [|c s IH]; [reflexivity|].
  rewrite rstrip_cons. destruct (lstrip (String c s)) eqn:E; [reflexivity|].
  rewrite rstrip_cons. destruct (lstrip (String c (rstrip s))) eqn:E2.
  - destruct (rstrip_split s) as (q & Hq & Hspace).
    pose proof (lstrip_app_all (String c (rstrip s)) q E2) as H.
    rewrite string_app_cons, <- Hq, Hspace in H. congruence.
  - now rewrite IH.
Qed.

Lemma rstrip_no_space (s : string) : skip_space s = None -> skip_space (rstrip s) = None.
Proof.
  intros Hs. destruct (skip_space (rstrip s)) as [rest|] eqn:E; [|reflexivity].
  destruct (rstrip_split s) as (q & Hq & _).
  apply (skip_space_app _ _ q) in E. rewrite <- Hq in E. congruence.
Qed.

(** Stripping a stripped text changes nothing. *)
Lemma strip_idem (s : string) : strip (strip s) = strip s.
Proof.
  unfold strip.
  rewrite (lstrip_fixed (rstrip (lstrip s)) (rstrip_no_space _ (lstrip_no_space s))).
  apply rstrip_idem.
Qed.

(** Whitespace beyond ASCII is stripped at both ends and kept inside: here
    U+00A0 and U+3000 in front, U+00A0 inside, U+2003 and U+0085 behind. *)
Example strip_unicode_spaces : strip "  　hi there " = "hi there".
Proof. reflexivity. Qed.
End StripFacts.

Section LoopFacts.
Import PyStr AwsMemory StreamDisplay Console.
Context {W : Type}.
Variable format_args : PyVal -> string.
Variable input : W -> InputResult * W.
Variable agent_stream : list BaseMessage -> W -> (list Chunk * option Signal) * W.

Lemma prints_start_nothing (shown : list string) :
  stream_calls (map EvPrint shown) = [] /\ lines_read (map EvPrint shown) = [].
Proof. induction shown as [|x shown [IHc IHl]]; [now split|]. now split. Qed.

Lemma calls_of_turn_trace (r : InputResult) (dash : string) (prompt : list BaseMessage)
    (shown : list string) (closing : list Event) :
  stream_calls closing = [] -> lines_read closing = [] ->
  lines_read (([EvInput r; EvPrint dash; EvStream prompt] ++ map EvPrint shown) ++ closing)
    = lines_read [EvInput r] /\
  stream_calls (([EvInput r; EvPrint dash; EvStream prompt] ++ map EvPrint shown) ++ closing)
    = [prompt].
Proof.
  intros Hc Hl. destruct (prints_start_nothing shown) as [Hpc Hpl].
  unfold stream_calls, lines_read in *.
  rewrite !omap_app, Hc, Hl, Hpc, Hpl, !app_nil_r. now split.
Qed.

(** What one turn reads and starts. *)
Lemma turn_reads_and_starts (w : W) :
  lines_read (turn format_args input agent_stream w).2
    = match (input w).1 with Line text => [text] | InputStops _ => [] end /\
  stream_calls (turn format_args input agent_stream w).2
    = match (input w).1 with
      | Line text =>
          if is_exit_command (strip text) then []
          else match query_of_line text with Some prompt => [prompt] | None => [] end
      | InputStops _ => []
      end.
Proof.
  unfold turn, query_of_line. destruct (input w) as [[text|[e|]] w1]; cbn [fst snd];
    try (split; reflexivity).
  destruct (is_exit_command (strip text)); [split; reflexivity|].
  destruct (truthy (strip text)); cbn [negb]; [|split; reflexivity].
  destruct (agent_stream _ w1) as [[chunks stop] w2].
  destruct (stream_turn format_args chunks 0) as [shown failed].
  destruct failed as [e|]; [|destruct stop as [[e|]|]]; cbn [snd];
    apply calls_of_turn_trace; reflexivity.
Qed.

End LoopFacts.

(** X17: the agent is never run on a blank line or on an exit word.  In every
    run of the loop, of any length, each run of the agent was started with a
    single user message holding a line that was read, stripped of
    surrounding whitespace, not empty, and not one of exit, quit, bye in any
    letter case. *)
Theorem chat_never_sends_blank_or_exit_word {W : Type}
    (format_args : AwsMemory.PyVal -> string)
    (input : W -> Console.InputResult * W)
    (agent_stream : list AwsMemory.BaseMessage -> W
                    -> (list AwsMemory.Chunk * option Console.Signal) * W)
    (fuel : nat) (w : W) (prompt : list AwsMemory.BaseMessage) :
  prompt ∈ Console.stream_calls (Console.chat_loop format_args input agent_stream fuel w).2 ->
  exists text,
    text ∈ Console.lines_read (Console.chat_loop format_args input agent_stream fuel w).2 /\
    prompt = [AwsMemory.HumanMessage (PyStr.strip text)] /\
    PyStr.strip text <> "" /\
    PyStr.strip (PyStr.strip text) = PyStr.strip text /\
    Console.is_exit_command (PyStr.strip text) = false.
Proof.
  assert (Hturn : forall w0,
            prompt ∈ Console.stream_calls (Console.turn format_args input agent_stream w0).2 ->
            exists text,
              text ∈ Console.lines_read (Console.turn format_args input agent_stream w0).2 /\
              prompt = [AwsMemory.HumanMessage (PyStr.strip text)] /\
              PyStr.strip text <> "" /\
              PyStr.strip (PyStr.strip text) = PyStr.strip text /\
              Console.is_exit_command (PyStr.strip text) = false).
  { intros w0. destruct (turn_reads_and_starts format_args input agent_stream w0) as [-> ->].
    destruct (input w0).1 as [text|s]; [|intros Hin; now apply elem_of_nil in Hin].
    destruct (Console.is_exit_command (PyStr.strip text)) eqn:Hexit;
      [intros Hin; now apply elem_of_nil in Hin|].
    unfold Console.query_of_line.
    destruct (PyStr.truthy (PyStr.strip text)) eqn:Htruthy;
      [|intros Hin; now apply elem_of_nil in Hin].
    intros Hin. apply list_elem_of_singleton in Hin as ->. exists text.
    split; [now apply list_elem_of_singleton|]. split; [reflexivity|].
    split; [intros Hs; now rewrite Hs in Htruthy|].
    split; [apply strip_idem | exact Hexit]. }
  revert w. induction fuel as [|fuel IH]; intros w.
  - intros Hin. now apply elem_of_nil in Hin.
  - cbn [Console.chat_loop]. specialize (Hturn w).
    destruct (Console.turn format_args input agent_stream w) as [[[] w1] t].
    + exact Hturn.
    + specialize (IH w1).
      destruct (Console.chat_loop format_args input agent_stream fuel w1) as [[r w2] t2].
      cbn [snd] in *. unfold Console.stream_calls, Console.lines_read in *.
      rewrite !omap_app. intros Hin. apply elem_of_app in Hin as [Hin | Hin].
      * destruct (Hturn Hin) as (text & Htext & Hrest). exists text.
        split; [apply elem_of_app; now left | exact Hrest].
      * destruct (IH Hin) as (text & Htext & Hrest). exists text.
        split; [apply elem_of_app; now right | exact Hrest].
Qed.

Lemma chat_never_sends_blank_or_exit_word_witness :
  exists text,
    text ∈ Console.lines_read
             (Console.chat_loop (fun _ => "{}") Console.scripted_input
                (Console.pure_stream (fun _ => ([], None))) 5
                ["  "; " 2+2? "; " QuIt "; "more"]).2 /\
    [AwsMemory.HumanMessage "2+2?"] = [AwsMemory.HumanMessage (PyStr.strip text)] /\
    PyStr.strip text <> "" /\
    PyStr.strip (PyStr.strip text) = PyStr.strip text /\
    Console.is_exit_command (PyStr.strip text) = false.
Proof.
  apply (chat_never_sends_blank_or_exit_word (fun _ => "{}") Console.scripted_input
           (Console.pure_stream (fun _ => ([], None))) 5
           ["  "; " 2+2? "; " QuIt "; "more"] [AwsMemory.HumanMessage "2+2?"]).
  apply list_elem_of_singleton. reflexivity.
Defined.



Section ScriptFacts.
Import PyStr AwsMemory StreamDisplay Console.
Variable format_args : PyVal -> string.
Variable run : list BaseMessage -> list Chunk * option PyExc.

Lemma turn_scripted_continue (text : string) (ws : list string) :
  is_exit_command (strip text) = false ->
  (turn format_args scripted_input (pure_stream run) (text :: ws)).1 = (Continue, ws).
Proof.
  intros Hexit. unfold turn, scripted_input. rewrite Hexit.
  destruct (truthy (strip text)); cbn [negb]; [|reflexivity].
  unfold pure_stream. destruct (run _) as [chunks stop].
  destruct (stream_turn format_args chunks 0) as [shown failed].
  destruct failed as [e|]; [reflexivity|]. destruct stop as [e|]; reflexivity.
Qed.

Lemma turn_scripted_exit (text : string) (ws : list string) :
  is_exit_command (strip text) = true ->
  turn format_args scripted_input (pure_stream run) (text :: ws)
    = (Break, ws,
       [EvInput (Line text); EvPrint (newline +:+ "👋 Goodbye! Thanks for using the agent.")]).
Proof. intros Hexit. unfold turn, scripted_input. now rewrite Hexit. Qed.
End ScriptFacts.

(** X19: a session typed at the terminal.  When the lines typed are any
    lines that are not exit words, followed by an exit word, the loop ends
    at the exit word and leaves what was typed after it unread.  It has
    started the agent once for each line that is not blank, in the order
    typed, each time with that stripped line alone as the conversation, and
    this whether or not the runs of the agent failed. *)
Theorem chat_session_one_call_per_query
    (format_args : AwsMemory.PyVal -> string)
    (run : list AwsMemory.BaseMessage -> list AwsMemory.Chunk * option PyExc)
    (lines : list string) (exit_line : string) (rest : list string) (fuel : nat) :
  Forall (fun text => Console.is_exit_command (PyStr.strip text) = false) lines ->
  Console.is_exit_command (PyStr.strip exit_line) = true ->
  length lines < fuel ->
  let session :=
    Console.chat_loop format_args Console.scripted_input (Console.pure_stream run)
      fuel (lines ++ exit_line :: rest) in
  session.1 = (Console.LoopExited, rest) /\
  Console.lines_read session.2 = lines ++ [exit_line] /\
  Console.stream_calls session.2 = omap Console.query_of_line lines.
Proof.
  intros Hlines Hexit. revert fuel.
  induction Hlines as [|text lines Htext _ IH]; intros [|fuel] Hfuel; try (cbn in Hfuel; lia).
  - cbn [app Console.chat_loop]. now rewrite (turn_scripted_exit _ _ _ _ Hexit).
  - cbn [app Console.chat_loop].
    pose proof (turn_scripted_continue format_args run text
                  (lines ++ exit_line :: rest) Htext) as Hturn.
    destruct (turn_reads_and_starts format_args Console.scripted_input
                (Console.pure_stream run) (text :: lines ++ exit_line :: rest))
      as [Hread Hstart].
    cbn [Console.scripted_input fst] in Hread, Hstart. rewrite Htext in Hstart.
    destruct (Console.turn format_args Console.scripted_input (Console.pure_stream run)
                (text :: lines ++ exit_line :: rest)) as [[next w1] t].
    cbn [fst snd] in *. injection Hturn as -> ->.
    destruct (IH fuel) as (Hend & Hr & Hs); [cbn in Hfuel; lia|].
    destruct (Console.chat_loop format_args Console.scripted_input (Console.pure_stream run)
                fuel (lines ++ exit_line :: rest)) as [[r w2] t2].
    cbn [fst snd] in *. split; [exact Hend|].
    unfold Console.lines_read, Console.stream_calls in *.
    rewrite !omap_app, Hread, Hstart, Hr, Hs. split; [reflexivity|].
    cbn [omap list_omap]. now destruct (Console.query_of_line text).
Qed.

Lemma chat_session_one_call_per_query_witness :
  (Console.chat_loop (fun _ => "{}") Console.scripted_input
     (Console.pure_stream (fun _ => ([AwsMemory.mkChunk (Some [])], None))) 5
     (["　  "; " 2+2? "; "why? "] ++ " QuIt " :: ["more"])).1
    = (Console.LoopExited, ["more"]) /\
  Console.stream_calls
    (Console.chat_loop (fun _ => "{}") Console.scripted_input
       (Console.pure_stream (fun _ => ([AwsMemory.mkChunk (Some [])], None))) 5
       (["　  "; " 2+2? "; "why? "] ++ " QuIt " :: ["more"])).2
    = [[AwsMemory.HumanMessage "2+2?"]; [AwsMemory.HumanMessage "why?"]].
Proof.
  destruct (chat_session_one_call_per_query (fun _ => "{}")
              (fun _ => ([AwsMemory.mkChunk (Some [])], None))
              ["　  "; " 2+2? "; "why? "] " QuIt " ["more"] 5)
    as (Hend & _ & Hcalls).
  - repeat constructor.
  - reflexivity.
  - cbn. lia.
  - split; [exact Hend | exact Hcalls].
Defined.
